(** * The OpenSearch plugin manager: a shallow embedding

    This development embeds [OpenSearchPluginManager]
    (lib/charms/opensearch/v0/opensearch_plugin_manager.py) and checks the
    statements of the specification against it.

    The manager is stateful Python: it reads and writes the node's
    configuration file, its keystore and its installed-plugin directory
    through collaborators, and it signals failures with exceptions. The
    embedding uses one state-and-exception monad over a record [World] that
    holds everything the collaborators own. *)

From Stdlib Require Import String Ascii.
From stdpp Require Import base gmap strings list fin_maps.

Open Scope string_scope.

#[global] Set Warnings "-clear-no-such-hyp".

(** ** Python string helpers *)

Module Py.

(** [s.split(sep)] for a separator of one character. The result is never
    empty: [str.split] of the empty string is the list holding the empty string. *)
Fixpoint split (sep : ascii) (s : string) : list string :=
  match s with
  | EmptyString => [EmptyString]
  | String c s' =>
      if Ascii.eqb c sep then EmptyString :: split sep s'
      else match split sep s' with
           | [] => [String c EmptyString]
           | h :: t => String c h :: t
           end
  end.

(** [sep.join(l)]. *)
Fixpoint join (sep : string) (l : list string) : string :=
  match l with
  | [] => EmptyString
  | [x] => x
  | x :: l' => x ++ sep ++ join sep l'
  end.

(** [p] is a prefix of [s]. *)
Fixpoint startswith (p s : string) : bool :=
  match p, s with
  | EmptyString, _ => true
  | String a p', String b s' => Ascii.eqb a b && startswith p' s'
  | String _ _, EmptyString => false
  end.

(** [sub in s] on strings: [sub] occurs somewhere in [s]. *)
Fixpoint contains (sub s : string) : bool :=
  startswith sub s ||
  match s with
  | EmptyString => false
  | String _ s' => contains sub s'
  end.

(** The line feed of ["\n"]. *)
Definition LF : ascii := ascii_of_nat 10.

(** The full stop of ["."]. *)
Definition DOT : ascii := "."%char.

(** [c] occurs in [s]. *)
Fixpoint has_char (c : ascii) (s : string) : bool :=
  match s with
  | EmptyString => false
  | String a s' => Ascii.eqb a c || has_char c s'
  end.

(** A string that is empty or starts with the separator. *)
Definition sep_tail (sep : ascii) (r : string) : Prop :=
  r = EmptyString ∨ ∃ r', r = String sep r'.

End Py.

(** ** Data model *)

(** Modelled from the spec: [HealthColors] of opensearch_health, the enum
    RED, YELLOW, GREEN and others of section 3. The manager names GREEN and
    YELLOW; [UNKNOWN] stands for whatever else [health.apply()] may return. *)
Inductive HealthColors : Type :=
  | GREEN
  | YELLOW
  | RED
  | UNKNOWN.

#[global] Instance HealthColors_eq_dec : EqDecision HealthColors.
Proof. solve_decision. Defined.

(** Modelled from the spec: [PluginState] of opensearch_plugins, the four
    states of section 3 under the names the manager uses. *)
Inductive PluginState : Type :=
  | MISSING
  | INSTALLED
  | ENABLED
  | WAITING_FOR_UPGRADE.

#[global] Instance PluginState_eq_dec : EqDecision PluginState.
Proof. solve_decision. Defined.

(** Modelled from the spec: [OpenSearchPluginConfig] of opensearch_plugins,
    the delta of section 3: two mappings to add and two lists of keys to
    delete, for the configuration file and for the keystore, under the field
    names the manager reads. *)
Record OpenSearchPluginConfig : Type := {
  config_entries_to_add : gmap string string;
  config_entries_to_del : list string;
  secret_entries_to_add : gmap string string;
  secret_entries_to_del : list string;
}.

(** Modelled from the spec: the exception classes of opensearch_plugins and
    opensearch_exceptions that the manager raises, re-raises or catches, with
    the taxonomy of section 7. The [OpenSearchPlugin...] classes all derive
    from [OpenSearchPluginError]; [OpenSearchCmdError] and the built-in
    [KeyError] do not. Payloads are the values the source formats into the
    message. *)
Inductive Exn : Type :=
  | KeyError (key : string)
  | OpenSearchCmdError (msg : string)
  | OpenSearchPluginError (msg : string)
  | OpenSearchPluginMissingDepsError (plugin : string) (missing_deps : list string)
  | OpenSearchPluginInstallError (msg : string)
  | OpenSearchPluginRemoveError (msg : string)
  | OpenSearchPluginMissingConfigError (key : string)
  | OpenSearchPluginRelationClusterNotReadyError.

(** [isinstance(e, KeyError)]. *)
Definition is_KeyError (e : Exn) : bool :=
  match e with KeyError _ => true | _ => false end.

(** [isinstance(e, OpenSearchCmdError)]. *)
Definition is_OpenSearchCmdError (e : Exn) : bool :=
  match e with OpenSearchCmdError _ => true | _ => false end.

(** [isinstance(e, OpenSearchPluginError)]: the base class and its subclasses. *)
Definition is_OpenSearchPluginError (e : Exn) : bool :=
  match e with
  | KeyError _ | OpenSearchCmdError _ => false
  | _ => true
  end.

(** The outcome of a Python call: a value or a raised exception. *)
Inductive Result (A : Type) : Type :=
  | Ok (a : A)
  | Raise (e : Exn).
Arguments Ok {A} a.
Arguments Raise {A} e.

(** Modelled from the spec: [OpenSearchPlugin] of opensearch_plugins, the
    descriptor of section 3 as the manager uses it: [name], [dependencies],
    [version], and the two methods [config()] and [disable()], which may
    raise (a plugin fed by a relation reads keys that may be absent). *)
Record OpenSearchPlugin : Type := {
  name : string;
  dependencies : list string;
  version : string;
  config : Result OpenSearchPluginConfig;
  disable : Result OpenSearchPluginConfig;
}.

(** Modelled from the spec: a value of the charm configuration
    ([charm.config]), a boolean, an integer or a string. *)
Inductive ConfigValue : Type :=
  | CBool (b : bool)
  | CInt (z : Z)
  | CStr (s : string).

(** Python truthiness of a configuration value. *)
Definition truthy (v : ConfigValue) : bool :=
  match v with
  | CBool b => b
  | CInt z => negb (z =? 0)%Z
  | CStr s => negb (String.eqb s EmptyString)
  end.

(** Modelled from the spec: a relation of the framework's model, with the
    two attributes the manager reads: its remote units and the databag of the
    remote application. *)
Record Relation : Type := {
  units : gset string;
  app_data : gmap string string;
}.

(** An entry of the catalog [ConfigExposedPlugins]: the plugin class (called
    with the plugins path and the extra configuration), the gating
    configuration option and the gating relation name. *)
Record PluginData : Type := {
  pd_class : string → option (gmap string string) → OpenSearchPlugin;
  pd_config : option string;
  pd_relation : option string;
}.

(** The catalog is a dict whose [values()] are walked in insertion order. *)
Definition Catalog : Type := list (string * PluginData).

(** [ConfigExposedPlugins], over the two plugin classes it names, which
    live in other modules. *)
Definition ConfigExposedPlugins
    (OpenSearchKnn OpenSearchBackupPlugin :
       string → option (gmap string string) → OpenSearchPlugin) : Catalog :=
  [ ("opensearch-knn",
     {| pd_class := OpenSearchKnn;
        pd_config := Some "plugin_opensearch_knn";
        pd_relation := None |});
    ("repository-s3",
     {| pd_class := OpenSearchBackupPlugin;
        pd_config := None;
        pd_relation := Some "s3-credentials" |}) ].

(** ** The world of the collaborators *)

(** What an external command answers: its output, or an
    [OpenSearchCmdError] with a message. *)
Inductive CmdOutcome : Type :=
  | CmdOk (stdout : string)
  | CmdFail (msg : string).

(** The calls that change something outside the manager, in the order made. *)
Inductive Event : Type :=
  | EvInstall (plugin : string)
  | EvKeystoreDelete (keys : list string)
  | EvKeystoreAdd (entries : gmap string string)
  | EvConfigDelete (keys : list string)
  | EvConfigAdd (entries : gmap string string).

(** Modelled from the spec: the collaborators of section 6 (node operations,
    health probe, configuration store, secret store, desired-state inputs)
    are other modules of the charm. [World] holds what they own:
    - [started]: [opensearch.is_started()];
    - [health_seq], [health_calls]: the successive answers of
      [health.apply()], which need not agree with one another;
    - [opensearch_version]: [opensearch.version];
    - [plugins_path]: [opensearch.paths.plugins];
    - [cmd_list]: the answer of [opensearch-plugin list];
    - [cmd_install]: the answer of [opensearch-plugin install --batch name];
    - [config_store]: the plugin entries of the configuration file;
    - [keystore]: the secret store;
    - [charm_config]: [charm.config];
    - [relations]: [charm.model.get_relation], by relation name;
    - [log]: the mutating calls made so far, oldest first. *)
Record World : Type := {
  started : bool;
  health_seq : nat → HealthColors;
  health_calls : nat;
  opensearch_version : string;
  plugins_path : string;
  cmd_list : CmdOutcome;
  cmd_install : string → CmdOutcome;
  config_store : gmap string string;
  keystore : gmap string string;
  charm_config : gmap string ConfigValue;
  relations : gmap string Relation;
  log : list Event;
}.

Definition set_health_calls (n : nat) (w : World) : World :=
  {| started := started w; health_seq := health_seq w; health_calls := n;
     opensearch_version := opensearch_version w; plugins_path := plugins_path w;
     cmd_list := cmd_list w; cmd_install := cmd_install w;
     config_store := config_store w; keystore := keystore w;
     charm_config := charm_config w; relations := relations w; log := log w |}.

Definition set_cmd_list (c : CmdOutcome) (w : World) : World :=
  {| started := started w; health_seq := health_seq w; health_calls := health_calls w;
     opensearch_version := opensearch_version w; plugins_path := plugins_path w;
     cmd_list := c; cmd_install := cmd_install w;
     config_store := config_store w; keystore := keystore w;
     charm_config := charm_config w; relations := relations w; log := log w |}.

Definition set_config_store (m : gmap string string) (w : World) : World :=
  {| started := started w; health_seq := health_seq w; health_calls := health_calls w;
     opensearch_version := opensearch_version w; plugins_path := plugins_path w;
     cmd_list := cmd_list w; cmd_install := cmd_install w;
     config_store := m; keystore := keystore w;
     charm_config := charm_config w; relations := relations w; log := log w |}.

Definition set_keystore (m : gmap string string) (w : World) : World :=
  {| started := started w; health_seq := health_seq w; health_calls := health_calls w;
     opensearch_version := opensearch_version w; plugins_path := plugins_path w;
     cmd_list := cmd_list w; cmd_install := cmd_install w;
     config_store := config_store w; keystore := m;
     charm_config := charm_config w; relations := relations w; log := log w |}.

Definition record (e : Event) (w : World) : World :=
  {| started := started w; health_seq := health_seq w; health_calls := health_calls w;
     opensearch_version := opensearch_version w; plugins_path := plugins_path w;
     cmd_list := cmd_list w; cmd_install := cmd_install w;
     config_store := config_store w; keystore := keystore w;
     charm_config := charm_config w; relations := relations w; log := log w ++ [e] |}.

(** ** The monad: state passing with exceptions *)

(** A computation runs from a world to an outcome and the world it leaves;
    what was written before an exception stays written. *)
Definition M (A : Type) : Type := World → Result A * World.

Definition ret {A} (a : A) : M A := λ w, (Ok a, w).

Definition raise {A} (e : Exn) : M A := λ w, (Raise e, w).

Definition bind {A B} (m : M A) (k : A → M B) : M B :=
  λ w, match m w with
       | (Ok a, w') => k a w'
       | (Raise e, w') => (Raise e, w')
       end.

(** [try: m except ...]: the handler says which exceptions it catches and
    what it runs then; an exception raised by a handler is not caught again. *)
Definition try_except {A} (m : M A) (h : Exn → option (M A)) : M A :=
  λ w, match m w with
       | (Ok a, w') => (Ok a, w')
       | (Raise e, w') =>
           match h e with
           | Some m' => m' w'
           | None => (Raise e, w')
           end
       end.

(** A pure call that may raise. *)
Definition lift {A} (r : Result A) : M A := λ w, (r, w).

(** Reading the world. *)
Definition gets {A} (f : World → A) : M A := λ w, (Ok (f w), w).

(** Changing the world. *)
Definition modify (f : World → World) : M unit := λ w, (Ok tt, f w).

Declare Scope py_scope.
Delimit Scope py_scope with py.
Notation "x <~ m ;; k" := (bind m (λ x, k))
  (at level 100, m at next level, right associativity) : py_scope.
Notation "m ;;; k" := (bind m (λ _, k))
  (at level 100, right associativity) : py_scope.
Open Scope py_scope.

(** ** Collaborators *)

Module Collab.

(** Modelled from the spec: [opensearch.is_started()], the [is_running] of
    section 6. *)
Definition is_started : M bool := gets started.

(** Modelled from the spec: [health.apply()], the health probe of section
    6: the next answer of the probe. *)
Definition health_apply : M HealthColors :=
  λ w, (Ok (health_seq w (health_calls w)), set_health_calls (S (health_calls w)) w).

(** Modelled from the spec: [opensearch.run_bin("opensearch-plugin", "list")],
    the [list_installed_plugins] of section 6, as the text the command prints. *)
Definition run_bin_list : M string :=
  λ w, match cmd_list w with
       | CmdOk out => (Ok out, w)
       | CmdFail msg => (Raise (OpenSearchCmdError msg), w)
       end.

(** Modelled from the spec: one more line at the end of the listing. *)
Definition add_line (out line : string) : string :=
  if String.eqb out EmptyString then line else out ++ String Py.LF line.

(** Modelled from the spec:
    [opensearch.run_bin("opensearch-plugin", "install --batch " + plugin)],
    the [install_plugin] of section 6. The call is logged; when it succeeds
    the plugin shows in later listings. *)
Definition run_bin_install (plugin : string) : M string :=
  λ w, let w1 := record (EvInstall plugin) w in
       match cmd_install w plugin with
       | CmdOk out =>
           (Ok out,
            match cmd_list w1 with
            | CmdOk l => set_cmd_list (CmdOk (add_line l plugin)) w1
            | CmdFail _ => w1
            end)
       | CmdFail msg => (Raise (OpenSearchCmdError msg), w1)
       end.

(** Modelled from the spec: [opensearch_config.get_plugin(plugin_conf)], the
    [get_plugin_config] of section 6: the stored entries under the keys of
    [plugin_conf]. *)
Definition get_plugin (plugin_conf : gmap string string) : M (gmap string string) :=
  gets (λ w, filter (λ kv, is_Some (plugin_conf !! kv.1)) (config_store w)).

(** Modelled from the spec: [opensearch_config.add_plugin(entries)], the
    [add_plugin_config] of section 6: each entry is written, over what was
    there. *)
Definition add_plugin (entries : gmap string string) : M unit :=
  modify (λ w, set_config_store (entries ∪ config_store w) (record (EvConfigAdd entries) w)).

(** Modelled from the spec: [opensearch_config.delete_plugin(keys)], the
    [delete_plugin_config] of section 6: each key is removed; a key that is
    not there is passed over. *)
Definition delete_plugin (keys : list string) : M unit :=
  modify (λ w, set_config_store (foldr delete (config_store w) keys)
                 (record (EvConfigDelete keys) w)).

(** Modelled from the spec: [keystore.add(entries)], the secret store of
    section 6. *)
Definition keystore_add (entries : gmap string string) : M unit :=
  modify (λ w, set_keystore (entries ∪ keystore w) (record (EvKeystoreAdd entries) w)).

(** Modelled from the spec: [keystore.delete(keys)], the secret store of
    section 6. *)
Definition keystore_delete (keys : list string) : M unit :=
  modify (λ w, set_keystore (foldr delete (keystore w) keys)
                 (record (EvKeystoreDelete keys) w)).

(** Modelled from the spec: [charm.config.get(key, False)], the
    configuration-option read of section 6, as a truth value. The key may be
    [None], which no configuration holds. *)
Definition charm_config_get (key : option string) : M bool :=
  gets (λ w, match key with
             | None => false
             | Some k => match charm_config w !! k with
                         | Some v => truthy v
                         | None => false
                         end
             end).

(** Modelled from the spec: [charm.model.get_relation(relation_name)], the
    relation presence check of section 6. *)
Definition get_relation (relation_name : string) : M (option Relation) :=
  gets (λ w, relations w !! relation_name).

End Collab.

(** ** The manager *)

(** [ConfigExposedPlugins[key]] on a catalog. *)
Fixpoint catalog_lookup (cat : Catalog) (key : string) : option PluginData :=
  match cat with
  | [] => None
  | (k, d) :: cat' => if String.eqb k key then Some d else catalog_lookup cat' key
  end.

(** Truthiness of an optional name: [None] and the empty string are falsy. *)
Definition name_truthy (n : option string) : bool :=
  match n with
  | None => false
  | Some s => negb (String.eqb s EmptyString)
  end.

Section Manager.

(** The catalog the module-level name [ConfigExposedPlugins] is bound to. *)
Variable catalog : Catalog.

(** [_installed_plugins]. *)
Definition _installed_plugins : M (list string) :=
  try_except
    (out <~ Collab.run_bin_list ;; ret (Py.split Py.LF out))
    (λ e, match e with
          | OpenSearchCmdError msg =>
              Some (raise (OpenSearchPluginError ("Failed to list plugins: " ++ msg)))
          | _ => None
          end).

(** [_is_installed]. *)
Definition _is_installed (plugin : OpenSearchPlugin) : M bool :=
  l <~ _installed_plugins ;; ret (bool_decide (name plugin ∈ l)).

(** [_is_enabled]. *)
Definition _is_enabled (plugin : OpenSearchPlugin) : M bool :=
  try_except
    (cfg <~ lift (config plugin) ;;
     let plugin_conf := config_entries_to_add cfg in
     stored_plugin_conf <~ Collab.get_plugin plugin_conf ;;
     ret (bool_decide (plugin_conf = stored_plugin_conf)))
    (λ e, if is_KeyError e || is_OpenSearchPluginError e
          then Some (ret false) else None).

(** The comparison of [_needs_upgrade], on the two version strings. *)
Definition versions_differ (service_version plugin_version : string) : bool :=
  let version := Py.split Py.DOT service_version in
  let plugin_version := Py.split Py.DOT plugin_version in
  let num_points := Nat.min (length plugin_version) (length version) in
  negb (String.eqb (Py.join "." (take num_points version))
                   (Py.join "." (take num_points plugin_version))).

(** [_needs_upgrade]. *)
Definition _needs_upgrade (plugin : OpenSearchPlugin) : M bool :=
  gets (λ w, versions_differ (opensearch_version w) (version plugin)).

(** [status]. *)
Definition status (plugin : OpenSearchPlugin) : M PluginState :=
  installed <~ _is_installed plugin ;;
  if negb installed then ret MISSING else
  enabled <~ _is_enabled plugin ;;
  if negb enabled then ret INSTALLED else
  upgrade <~ _needs_upgrade plugin ;;
  if upgrade then ret WAITING_FOR_UPGRADE else
  ret ENABLED.

(** [_is_plugin_relation_set]. *)
Definition _is_plugin_relation_set (relation_name : option string) : M bool :=
  if negb (name_truthy relation_name) then ret false else
  relation <~ Collab.get_relation (default EmptyString relation_name) ;;
  match relation with
  | None => ret false
  | Some r => ret (bool_decide (0 < size (units r)))
  end.

(** [_user_requested_to_enable]. *)
Definition _user_requested_to_enable (plugin : OpenSearchPlugin) : M bool :=
  plugin_data <~ lift (match catalog_lookup catalog (name plugin) with
                       | Some d => Ok d
                       | None => Raise (KeyError (name plugin))
                       end) ;;
  by_config <~ Collab.charm_config_get (pd_config plugin_data) ;;
  if negb by_config then
    by_relation <~ _is_plugin_relation_set (pd_relation plugin_data) ;;
    if negb by_relation then ret false else ret true
  else ret true.

(** [_apply_config]. *)
Definition _apply_config (cfg : OpenSearchPluginConfig) : M bool :=
  Collab.keystore_delete (secret_entries_to_del cfg) ;;;
  Collab.keystore_add (secret_entries_to_add cfg) ;;;
  (if bool_decide (config_entries_to_del cfg ≠ [])
   then Collab.delete_plugin (config_entries_to_del cfg) else ret tt) ;;;
  (if bool_decide (config_entries_to_add cfg ≠ ∅)
   then Collab.add_plugin (config_entries_to_add cfg) else ret tt) ;;;
  ret (if bool_decide (config_entries_to_add cfg ≠ ∅)
          || bool_decide (config_entries_to_del cfg ≠ [])
       then true else false).

(** The handler [except KeyError as e: raise OpenSearchPluginMissingConfigError(e)]. *)
Definition on_KeyError {A} (e : Exn) : option (M A) :=
  match e with
  | KeyError k => Some (raise (OpenSearchPluginMissingConfigError k))
  | _ => None
  end.

(** The two handlers of [_install_if_needed]: a [KeyError] becomes a
    missing-configuration error; a command error that says "already exists"
    ends the call with [False], any other becomes an install error. *)
Definition on_install_error (plugin : OpenSearchPlugin) (e : Exn) : option (M bool) :=
  match e with
  | KeyError k => Some (raise (OpenSearchPluginMissingConfigError k))
  | OpenSearchCmdError msg =>
      if Py.contains "already exists" msg then Some (ret false)
      else Some (raise (OpenSearchPluginInstallError
                          ("Failed to install plugin " ++ name plugin ++ ": " ++ msg)))
  | _ => None
  end.

(** [_install_if_needed]. *)
Definition _install_if_needed (plugin : OpenSearchPlugin) : M bool :=
  installed_plugins <~ _installed_plugins ;;
  try_except
    (st <~ status plugin ;;
     nothing_to_do <~ (if bool_decide (st ≠ MISSING) then ret true
                       else wanted <~ _user_requested_to_enable plugin ;;
                            ret (negb wanted)) ;;
     if nothing_to_do then ret false else
     let missing_deps :=
       filter (λ dep, dep ∉ installed_plugins) (dependencies plugin) in
     if bool_decide (missing_deps ≠ [])
     then raise (OpenSearchPluginMissingDepsError (name plugin) missing_deps)
     else Collab.run_bin_install (name plugin) ;;; ret true)
    (on_install_error plugin).

(** [_configure_if_needed]. *)
Definition _configure_if_needed (plugin : OpenSearchPlugin) : M bool :=
  try_except
    (wanted <~ _user_requested_to_enable plugin ;;
     leave <~ (if negb wanted then ret true
               else st <~ status plugin ;; ret (bool_decide (st ≠ INSTALLED))) ;;
     if leave then ret false else
     cfg <~ lift (config plugin) ;; _apply_config cfg)
    on_KeyError.

(** [_disable_if_needed]. *)
Definition _disable_if_needed (plugin : OpenSearchPlugin) : M bool :=
  try_except
    (wanted <~ _user_requested_to_enable plugin ;;
     leave <~ (if wanted then ret true
               else st <~ status plugin ;;
                    ret (bool_decide (st ∉ [ENABLED; WAITING_FOR_UPGRADE]))) ;;
     if leave then ret false else
     cfg <~ lift (disable plugin) ;; _apply_config cfg)
    on_KeyError.

(** [_extra_conf]. *)
Definition _extra_conf (plugin_data : PluginData) : M (option (gmap string string)) :=
  let relation_name := pd_relation plugin_data in
  relation <~ (if name_truthy relation_name
               then Collab.get_relation (default EmptyString relation_name)
               else ret None) ;;
  match relation with
  | None => ret None
  | Some r => ret (Some (app_data r))
  end.

(** The property [plugins]: one fresh descriptor per catalog entry. *)
Fixpoint plugins_of (entries : Catalog) : M (list OpenSearchPlugin) :=
  match entries with
  | [] => ret []
  | (_, plugin_data) :: entries' =>
      path <~ gets plugins_path ;;
      extra <~ _extra_conf plugin_data ;;
      rest <~ plugins_of entries' ;;
      ret (pd_class plugin_data path extra :: rest)
  end.

Definition plugins : M (list OpenSearchPlugin) := plugins_of catalog.

(** The opening test of [run]: raise when the service is not started and
    [health.apply() != GREEN or health.apply() != YELLOW]. The probe is
    called a second time only when the first answer was GREEN. *)
Definition readiness_gate : M unit :=
  is_up <~ Collab.is_started ;;
  not_ready <~ (if negb is_up then
                  h1 <~ Collab.health_apply ;;
                  if bool_decide (h1 ≠ GREEN) then ret true else
                  h2 <~ Collab.health_apply ;;
                  ret (bool_decide (h2 ≠ YELLOW))
                else ret false) ;;
  if not_ready then raise OpenSearchPluginRelationClusterNotReadyError
  else ret tt.

(** The three phases on one plugin and the running disjunction
    [any([install, configure, disable, restart_needed])]: the list is built
    in full, so every phase is called. *)
Definition run_plugin (plugin : OpenSearchPlugin) (restart_needed : bool) : M bool :=
  a <~ _install_if_needed plugin ;;
  b <~ _configure_if_needed plugin ;;
  c <~ _disable_if_needed plugin ;;
  ret (a || b || c || restart_needed).

(** The [for plugin in self.plugins] loop of [run]. *)
Fixpoint run_loop (ps : list OpenSearchPlugin) (restart_needed : bool) : M bool :=
  match ps with
  | [] => ret restart_needed
  | plugin :: ps' =>
      restart_needed' <~ run_plugin plugin restart_needed ;;
      run_loop ps' restart_needed'
  end.

(** [run]. *)
Definition run : M bool :=
  readiness_gate ;;;
  ps <~ plugins ;;
  run_loop ps false.

End Manager.

(** ** The manager: lookups by class and removal *)

(** A plugin class, as [get_plugin] and [get_plugin_status] use one: how it
    prints in a message, and which descriptors are its instances. *)
Record PluginClass : Type := {
  class_repr : string;
  isinstance : OpenSearchPlugin → bool;
}.

Section Lookups.

Variable catalog : Catalog.

(** The loop of [get_plugin] over [self.plugins]. *)
Fixpoint get_plugin_loop (plugin_class : PluginClass) (ps : list OpenSearchPlugin)
    : M OpenSearchPlugin :=
  match ps with
  | [] => raise (KeyError ("Plugin manager did not find plugin: "
                           ++ class_repr plugin_class))
  | plugin :: ps' =>
      if isinstance plugin_class plugin then ret plugin
      else get_plugin_loop plugin_class ps'
  end.

(** [get_plugin]. *)
Definition get_plugin (plugin_class : PluginClass) : M OpenSearchPlugin :=
  ps <~ plugins catalog ;; get_plugin_loop plugin_class ps.

(** The loop of [get_plugin_status] over [self.plugins]. *)
Fixpoint get_plugin_status_loop (plugin_class : PluginClass)
    (ps : list OpenSearchPlugin) : M PluginState :=
  match ps with
  | [] => raise (KeyError ("Plugin manager did not find plugin: "
                           ++ class_repr plugin_class))
  | plugin :: ps' =>
      if isinstance plugin_class plugin then status plugin
      else get_plugin_status_loop plugin_class ps'
  end.

(** [get_plugin_status]. *)
Definition get_plugin_status (plugin_class : PluginClass) : M PluginState :=
  ps <~ plugins catalog ;; get_plugin_status_loop plugin_class ps.

End Lookups.

Section Removal.

(** The answer of [opensearch-plugin remove name], by plugin name. *)
Variable cmd_remove : string → CmdOutcome.

(** Modelled from the spec: the listing without the lines that read [line]. *)
Definition remove_line (out line : string) : string :=
  Py.join (String Py.LF EmptyString)
          (filter (λ x, x ≠ line) (Py.split Py.LF out)).

(** Modelled from the spec: [opensearch.run_bin("opensearch-plugin", "remove "
    + plugin)], the [remove_plugin] of section 6. When it succeeds the plugin
    leaves the listing. *)
Definition run_bin_remove (plugin : string) : M string :=
  λ w, match cmd_remove plugin with
       | CmdOk out =>
           (Ok out,
            match cmd_list w with
            | CmdOk l => set_cmd_list (CmdOk (remove_line l plugin)) w
            | CmdFail _ => w
            end)
       | CmdFail msg => (Raise (OpenSearchCmdError msg), w)
       end.

(** The handler of [_remove_plugin]: a command error that says "not found"
    ends the call, any other becomes a remove error. *)
Definition on_remove_error (plugin : string) (e : Exn) : option (M unit) :=
  match e with
  | OpenSearchCmdError msg =>
      if Py.contains "not found" msg then Some (ret tt)
      else Some (raise (OpenSearchPluginRemoveError
                          ("Failed to remove plugin " ++ plugin ++ ": " ++ msg)))
  | _ => None
  end.

(** [_remove_plugin]. *)
Definition _remove_plugin (plugin : string) : M unit :=
  try_except (run_bin_remove plugin ;;; ret tt) (on_remove_error plugin).

End Removal.

(** ** Sample worlds and plugins, for the scenarios *)

Module Sample.

(** A plugin in the manner of the k-NN plugin: no dependency, one
    configuration entry to enable it, the same key rewritten to disable it. *)
Definition knn (version : string) : OpenSearchPlugin :=
  {| name := "opensearch-knn";
     dependencies := [];
     version := version;
     config := Ok {| config_entries_to_add := {[ "knn.plugin.enabled" := "true" ]};
                     config_entries_to_del := [];
                     secret_entries_to_add := ∅;
                     secret_entries_to_del := [] |};
     disable := Ok {| config_entries_to_add := {[ "knn.plugin.enabled" := "false" ]};
                      config_entries_to_del := ["knn.plugin.enabled"];
                      secret_entries_to_add := ∅;
                      secret_entries_to_del := [] |} |}.

(** A plugin in the manner of the backup plugin: it depends on another
    plugin, and enabling it writes secrets and configuration. *)
Definition s3 (version : string) : OpenSearchPlugin :=
  {| name := "repository-s3";
     dependencies := ["opensearch-knn"];
     version := version;
     config := Ok {| config_entries_to_add := {[ "s3.client.default.region" := "default" ]};
                     config_entries_to_del := [];
                     secret_entries_to_add := {[ "s3.client.default.access_key" := "k" ]};
                     secret_entries_to_del := [] |};
     disable := Ok {| config_entries_to_add := ∅;
                      config_entries_to_del := ["s3.client.default.region"];
                      secret_entries_to_add := ∅;
                      secret_entries_to_del := ["s3.client.default.access_key"] |} |}.

(** The catalog of the module, with the two sample classes. *)
Definition catalog : Catalog :=
  ConfigExposedPlugins (λ _ _, knn "2.9.0.0") (λ _ _, s3 "2.9.0.0").

(** A node: service state, one steady health colour, the listing, the
    answer of the install command, the configuration file and the charm
    configuration. No relation, an empty keystore, nothing logged. *)
Definition node (is_up : bool) (health : HealthColors) (listing : CmdOutcome)
    (install : CmdOutcome) (store : gmap string string)
    (options : gmap string ConfigValue) : World :=
  {| started := is_up;
     health_seq := λ _, health;
     health_calls := 0;
     opensearch_version := "2.9.0";
     plugins_path := "/usr/share/opensearch/plugins";
     cmd_list := listing;
     cmd_install := λ _, install;
     config_store := store;
     keystore := ∅;
     charm_config := options;
     relations := ∅;
     log := [] |}.

(** The charm configuration that asks for the k-NN plugin. *)
Definition knn_on : gmap string ConfigValue :=
  {[ "plugin_opensearch_knn" := CBool true ]}.

End Sample.

(** ** Notions used in the statements *)

(** A computation that leaves the world as it found it. *)
Definition read_only {A} (m : M A) : Prop := ∀ w, (m w).2 = w.

(** What [_installed_plugins] returns, read off the world. *)
Definition listing (w : World) : Result (list string) :=
  match cmd_list w with
  | CmdOk out => Ok (Py.split Py.LF out)
  | CmdFail msg => Raise (OpenSearchPluginError ("Failed to list plugins: " ++ msg))
  end.

(** The entries of the configuration file under the keys of [conf]: what
    [get_plugin(conf)] answers in [w]. *)
Definition applied_entries (w : World) (conf : gmap string string) : gmap string string :=
  filter (λ kv, is_Some (conf !! kv.1)) (config_store w).

(** Where an exception [e] raised in world [w] goes under the handler [h]. *)
Definition handled {A} (h : Exn → option (M A)) (e : Exn) (w : World) : Result A * World :=
  match h e with
  | Some m' => m' w
  | None => (Raise e, w)
  end.

(** The dependencies of [p] that the listing [l] does not show. *)
Definition missing_deps_of (p : OpenSearchPlugin) (l : list string) : list string :=
  filter (λ dep, dep ∉ l) (dependencies p).

(** The world after a successful install of [plugin]. *)
Definition after_install (plugin : string) (w : World) : World :=
  match cmd_list w with
  | CmdOk l => set_cmd_list (CmdOk (Collab.add_line l plugin)) (record (EvInstall plugin) w)
  | CmdFail _ => record (EvInstall plugin) w
  end.

(** The configuration side of the test of [_user_requested_to_enable]. *)
Definition config_gate (w : World) (d : PluginData) : bool :=
  match pd_config d with
  | None => false
  | Some k => match charm_config w !! k with
              | Some v => truthy v
              | None => false
              end
  end.

(** The relation side of the test. *)
Definition relation_gate (w : World) (d : PluginData) : bool :=
  match pd_relation d with
  | None => false
  | Some r => negb (String.eqb r EmptyString)
              && match relations w !! r with
                 | Some rel => bool_decide (0 < size (units rel))
                 | None => false
                 end
  end.

(** Between [w] and [w'] a mutating call was made: the log grew. *)
Definition acted (w w' : World) : bool :=
  negb (Nat.eqb (length (log w')) (length (log w))).

(** Which of install, configure and disable made a mutating call on
    [plugin] in its turn of the loop of [run]. The phases follow one
    another as in [run_plugin]: each starts in the world the one before
    left, and none runs after one that raised. *)
Definition phases_acted (catalog : Catalog) (plugin : OpenSearchPlugin) (w : World)
    : bool * bool * bool :=
  match _install_if_needed catalog plugin w with
  | (Raise _, w1) => (acted w w1, false, false)
  | (Ok _, w1) =>
      match _configure_if_needed catalog plugin w1 with
      | (Raise _, w2) => (acted w w1, acted w1 w2, false)
      | (Ok _, w2) =>
          (acted w w1, acted w1 w2,
           acted w2 (_disable_if_needed catalog plugin w2).2)
      end
  end.

(** At most one of three flags is set. *)
Definition at_most_one (i c d : bool) : bool :=
  negb (i && c) && negb (i && d) && negb (c && d).

(** Between [w] and [w'] nothing moved but the stores, the listing and the
    log, and the log only grew: service state, health probe, versions, paths,
    the answers of the install command, charm configuration and relations are
    the same. *)
Definition same_node (w w' : World) : Prop :=
  started w' = started w ∧
  health_seq w' = health_seq w ∧
  health_calls w' = health_calls w ∧
  opensearch_version w' = opensearch_version w ∧
  plugins_path w' = plugins_path w ∧
  cmd_install w' = cmd_install w ∧
  charm_config w' = charm_config w ∧
  relations w' = relations w ∧
  ∃ es, log w' = (log w ++ es)%list.

(** A plugin the cycle has nothing to do for: asked for and ENABLED or
    WAITING_FOR_UPGRADE, or not asked for and MISSING or INSTALLED. *)
Definition settled (catalog : Catalog) (p : OpenSearchPlugin) (w : World) : Prop :=
  ((_user_requested_to_enable catalog p w).1 = Ok true
   ∧ ((status p w).1 = Ok ENABLED ∨ (status p w).1 = Ok WAITING_FOR_UPGRADE))
  ∨ ((_user_requested_to_enable catalog p w).1 = Ok false
     ∧ ((status p w).1 = Ok MISSING ∨ (status p w).1 = Ok INSTALLED)).

(** ** Facts about the string helpers *)

Module PyFacts.
Import Py.

Lemma split_nonempty sep s : split sep s ≠ [].
Proof.
  destruct s as [|c s]; simpl; [done|].
  destruct (Ascii.eqb c sep); [done|].
  by destruct (split sep s).
Qed.

(** No component of a split holds the separator. *)
Lemma split_no_sep sep s : Forall (λ x, has_char sep x = false) (split sep s).
Proof.
  induction s as [|c s IH]; simpl.
  - by repeat constructor.
  - destruct (Ascii.eqb c sep) eqn:Hc.
    + by constructor.
    + pose proof (split_nonempty sep s) as Hne.
      destruct (split sep s) as [|h t]; [done|]. inversion IH; subst.
      constructor; [|done]. simpl. by rewrite Hc.
Qed.

(** Joining the components of a split gives the string back. *)
Lemma join_split sep s : join (String sep EmptyString) (split sep s) = s.
Proof.
  induction s as [|c s IH]; simpl; [done|].
  destruct (Ascii.eqb c sep) eqn:Hc.
  - apply Ascii.eqb_eq in Hc as ->.
    pose proof (split_nonempty sep s) as Hne.
    destruct (split sep s) as [|h t]; [done|].
    simpl in *. by rewrite IH.
  - pose proof (split_nonempty sep s) as Hne.
    destruct (split sep s) as [|h [|h' t]]; [done| |]; simpl in *; by rewrite <- IH.
Qed.

(** Two separator-free heads before such tails are cut at the same place. *)
Lemma head_before_sep sep x y r1 r2 :
  has_char sep x = false → has_char sep y = false →
  sep_tail sep r1 → sep_tail sep r2 →
  (x ++ r1 = y ++ r2)%string → x = y ∧ r1 = r2.
Proof.
  revert y. induction x as [|a x IH]; intros [|b y] Hx Hy H1 H2 Heq; simpl in *.
  - done.
  - apply orb_false_elim in Hy as [Hb _].
    destruct H1 as [->|[r' ->]]; [done|].
    injection Heq as <- _. by rewrite Ascii.eqb_refl in Hb.
  - apply orb_false_elim in Hx as [Ha _].
    destruct H2 as [->|[r' ->]]; [done|].
    injection Heq as -> _. by rewrite Ascii.eqb_refl in Ha.
  - apply orb_false_elim in Hx as [_ Hx]. apply orb_false_elim in Hy as [_ Hy].
    injection Heq as -> Heq.
    destruct (IH y Hx Hy H1 H2 Heq) as [-> ->]. done.
Qed.

Lemma join_cons sep x l :
  join (String sep EmptyString) (x :: l) =
  (x ++ match l with
        | [] => EmptyString
        | _ => String sep (join (String sep EmptyString) l)
        end)%string.
Proof.
  destruct l as [|y l].
  - simpl. induction x as [|a x IH]; [done|].
    change (String a x = String a (x ++ EmptyString)%string). by f_equal.
  - reflexivity.
Qed.

(** On separator-free components of equal number, [join] is one to one. *)
Lemma join_inj sep (l1 l2 : list string) :
  length l1 = length l2 →
  Forall (λ x, has_char sep x = false) l1 →
  Forall (λ x, has_char sep x = false) l2 →
  join (String sep EmptyString) l1 = join (String sep EmptyString) l2 →
  l1 = l2.
Proof.
  revert l2. induction l1 as [|x l1 IH]; intros [|y l2] Hlen F1 F2 Heq;
    simpl in Hlen; try done.
  inversion F1 as [|?? Hx F1']; inversion F2 as [|?? Hy F2']; subst.
  rewrite !join_cons in Heq.
  apply (head_before_sep sep) in Heq as [-> Hrest]; try done.
  - f_equal. apply IH; [lia|done|done|].
    destruct l1, l2; simpl in Hlen; try done. by injection Hrest.
  - destruct l1; [by left|right; eauto].
  - destruct l2; [by left|right; eauto].
Qed.

(** [contains] finds what was put there. *)
Lemma startswith_app p s : startswith p (p ++ s) = true.
Proof.
  induction p as [|a p IH]; [done|].
  change (Ascii.eqb a a && startswith p (p ++ s) = true).
  by rewrite Ascii.eqb_refl.
Qed.

Lemma contains_app pre sub post : contains sub (pre ++ sub ++ post) = true.
Proof.
  induction pre as [|c pre IH].
  - change (contains sub (sub ++ post) = true).
    destruct sub as [|a sub]; [by destruct post|].
    change (startswith (String a sub) (String a (sub ++ post))
            || contains (String a sub) (sub ++ post) = true).
    simpl. by rewrite Ascii.eqb_refl, startswith_app.
  - change (startswith sub (String c (pre ++ sub ++ post))
            || contains sub (pre ++ sub ++ post) = true).
    rewrite IH. apply orb_true_r.
Qed.

(** Splitting around one separator splits both sides. *)
Lemma split_app sep a b :
  split sep (a ++ String sep b)%string = (split sep a ++ split sep b)%list.
Proof.
  induction a as [|c a IH].
  - change (split sep (String sep b) = EmptyString :: split sep b).
    simpl. by rewrite Ascii.eqb_refl.
  - change (split sep (String c (a ++ String sep b))
            = (split sep (String c a) ++ split sep b)%list).
    simpl. rewrite IH.
    destruct (Ascii.eqb c sep); [done|].
    pose proof (split_nonempty sep a) as Hne.
    by destruct (split sep a).
Qed.

(** A string without the separator is its own single component. *)
Lemma split_one sep s : has_char sep s = false → split sep s = [s].
Proof.
  induction s as [|c s IH]; simpl; [done|].
  intros [Hc Hs]%orb_false_elim. rewrite Hc, (IH Hs). done.
Qed.

End PyFacts.

(** ** Facts about the monad *)

Section MonadFacts.
Context {A B : Type}.

Lemma bind_raise (m : M A) (k : A → M B) w e w' :
  m w = (Raise e, w') → bind m k w = (Raise e, w').
Proof. unfold bind. by intros ->. Qed.

End MonadFacts.

Section ReadOnly.
Context {A B : Type}.

Lemma read_only_run (m : M A) w : read_only m → m w = ((m w).1, w).
Proof. intros H. specialize (H w). by destruct (m w) as [r w']; simpl in *; subst. Qed.

Lemma read_only_ret (a : A) : read_only (ret a).
Proof. done. Qed.

Lemma read_only_raise e : read_only (@raise A e).
Proof. done. Qed.

Lemma read_only_lift (r : Result A) : read_only (lift r).
Proof. done. Qed.

Lemma read_only_gets (f : World → A) : read_only (gets f).
Proof. done. Qed.

Lemma read_only_bind (m : M A) (k : A → M B) :
  read_only m → (∀ a, read_only (k a)) → read_only (bind m k).
Proof.
  intros Hm Hk w. unfold bind. rewrite (read_only_run m w Hm).
  destruct (m w).1; [apply Hk|done].
Qed.

Lemma read_only_try (m : M A) h :
  read_only m → (∀ e m', h e = Some m' → read_only m') →
  read_only (try_except m h).
Proof.
  intros Hm Hh w. unfold try_except. rewrite (read_only_run m w Hm).
  destruct (m w).1 as [a|e]; [done|].
  destruct (h e) as [m'|] eqn:He; [by apply (Hh e)|done].
Qed.

(** Binding after a reader: the continuation starts from the same world. *)
Lemma bind_read (m : M A) (k : A → M B) w :
  read_only m →
  bind m k w = match (m w).1 with
               | Ok a => k a w
               | Raise e => (Raise e, w)
               end.
Proof. intros Hm. unfold bind. by rewrite (read_only_run m w Hm). Qed.
End ReadOnly.

Create HintDb ro discriminated.
#[global] Hint Resolve read_only_ret read_only_raise read_only_lift read_only_gets : ro.
#[global] Hint Extern 2 (read_only (bind _ _)) => apply read_only_bind; [|intros ?] : ro.
#[global] Hint Extern 2 (read_only (if ?b then _ else _)) => destruct b : ro.
#[global] Hint Extern 2 (read_only (match ?x with _ => _ end)) => destruct x : ro.

(** ** The manager's readers *)

Section Readers.
Variable catalog : Catalog.

Lemma run_bin_list_ro : read_only Collab.run_bin_list.
Proof. intros w. unfold Collab.run_bin_list. by destruct (cmd_list w). Qed.

Lemma installed_plugins_eq w : _installed_plugins w = (listing w, w).
Proof.
  unfold _installed_plugins, listing, try_except, bind, Collab.run_bin_list.
  by destruct (cmd_list w).
Qed.

Lemma installed_plugins_ro : read_only _installed_plugins.
Proof. intros w. by rewrite installed_plugins_eq. Qed.

Lemma is_installed_ro p : read_only (_is_installed p).
Proof. unfold _is_installed. auto using installed_plugins_ro with ro. Qed.

Lemma get_plugin_ro conf : read_only (Collab.get_plugin conf).
Proof. done. Qed.

Lemma is_enabled_ro p : read_only (_is_enabled p).
Proof.
  unfold _is_enabled. apply read_only_try.
  - auto using get_plugin_ro with ro.
  - intros e m' He. destruct (_ || _); by simplify_eq.
Qed.

Lemma needs_upgrade_ro p : read_only (_needs_upgrade p).
Proof. done. Qed.

Lemma status_ro p : read_only (status p).
Proof.
  unfold status.
  auto 10 using is_installed_ro, is_enabled_ro, needs_upgrade_ro with ro.
Qed.

Lemma is_plugin_relation_set_ro r : read_only (_is_plugin_relation_set r).
Proof.
  unfold _is_plugin_relation_set. destruct (negb _); [done|].
  apply read_only_bind; [done|]. intros [rel|]; done.
Qed.

Lemma user_requested_ro p : read_only (_user_requested_to_enable catalog p).
Proof.
  unfold _user_requested_to_enable.
  apply read_only_bind; [done|]. intros d.
  apply read_only_bind; [done|]. intros [|]; simpl; [done|].
  apply read_only_bind; [apply is_plugin_relation_set_ro|]. by intros [|].
Qed.

Lemma extra_conf_ro d : read_only (_extra_conf d).
Proof.
  unfold _extra_conf. apply read_only_bind.
  - by destruct (name_truthy _).
  - by intros [r|].
Qed.

Lemma plugins_of_ro entries : read_only (plugins_of entries).
Proof.
  induction entries as [|[k d] entries IH]; simpl; [done|].
  apply read_only_bind; [done|]. intros path.
  apply read_only_bind; [apply extra_conf_ro|]. intros extra.
  apply read_only_bind; [done|]. by intros rest.
Qed.

End Readers.

(** ** The status evaluator *)

Section Status.

Lemma is_enabled_ok w p cfg :
  config p = Ok cfg →
  _is_enabled p w =
    (Ok (bool_decide (config_entries_to_add cfg
                      = applied_entries w (config_entries_to_add cfg))), w).
Proof. intros Hc. unfold _is_enabled, try_except, bind, lift. by rewrite Hc. Qed.

Lemma is_enabled_caught w p e :
  config p = Raise e → is_KeyError e || is_OpenSearchPluginError e = true →
  _is_enabled p w = (Ok false, w).
Proof. intros Hc He. unfold _is_enabled, try_except, bind, lift. by rewrite Hc, He. Qed.

Lemma is_enabled_passed w p e :
  config p = Raise e → is_KeyError e || is_OpenSearchPluginError e = false →
  _is_enabled p w = (Raise e, w).
Proof. intros Hc He. unfold _is_enabled, try_except, bind, lift. by rewrite Hc, He. Qed.

Lemma is_installed_eq w p :
  (_is_installed p w).1 =
    match listing w with
    | Ok l => Ok (bool_decide (name p ∈ l))
    | Raise e => Raise e
    end.
Proof.
  unfold _is_installed. rewrite bind_read by apply installed_plugins_ro.
  rewrite installed_plugins_eq. simpl. by destruct (listing w).
Qed.

(** [status], one test after the other, read off the world. *)
Lemma status_eq w p :
  status p w =
    (match listing w with
     | Raise e => Raise e
     | Ok l =>
         if bool_decide (name p ∈ l) then
           match (_is_enabled p w).1 with
           | Raise e => Raise e
           | Ok false => Ok INSTALLED
           | Ok true =>
               Ok (if versions_differ (opensearch_version w) (version p)
                   then WAITING_FOR_UPGRADE else ENABLED)
           end
         else Ok MISSING
     end, w).
Proof.
  unfold status, _is_installed.
  rewrite bind_read by (apply read_only_bind; [apply installed_plugins_ro|done]).
  rewrite bind_read by apply installed_plugins_ro.
  rewrite installed_plugins_eq. simpl.
  destruct (listing w) as [l|e]; [|done]. simpl.
  destruct (bool_decide (name p ∈ l)); simpl; [|done].
  rewrite bind_read by apply is_enabled_ro.
  destruct (_is_enabled p w).1 as [[|]|e]; simpl; try done.
  unfold bind, _needs_upgrade, gets.
  by destruct (versions_differ _ _).
Qed.

(** The stored entries under the keys of [conf] are [conf] itself exactly
    when every entry of [conf] is stored with the same value: fewer stored
    keys, or another value under one of them, is not a match. *)
Lemma applied_entries_match w (conf : gmap string string) :
  conf = applied_entries w conf ↔ conf ⊆ config_store w.
Proof.
  unfold applied_entries. split.
  - intros Heq. rewrite Heq. apply map_filter_subseteq.
  - intros Hsub. apply map_eq. intros k.
    destruct (conf !! k) as [v|] eqn:Hk.
    + symmetry. apply map_lookup_filter_Some. split; [|by simpl; rewrite Hk].
      by eapply lookup_weaken.
    + symmetry. apply map_lookup_filter_None. right. intros v _ [? Hs].
      simpl in Hs. by rewrite Hk in Hs.
Qed.

End Status.

(** ** The three phases *)

Section Phases.
Variable catalog : Catalog.

Local Abbreviation wanted p w := (_user_requested_to_enable catalog p w).1.

(** [_apply_config] never raises. *)
Lemma apply_config_ok cfg w :
  (_apply_config cfg w).1 =
    Ok (bool_decide (config_entries_to_add cfg ≠ ∅)
        || bool_decide (config_entries_to_del cfg ≠ [])).
Proof.
  unfold _apply_config, bind, Collab.keystore_delete, Collab.keystore_add, modify. simpl.
  destruct (bool_decide (config_entries_to_del cfg ≠ [])),
           (bool_decide (config_entries_to_add cfg ≠ ∅)); done.
Qed.

(** [_install_if_needed], branch by branch. *)
Lemma install_eq p w :
  _install_if_needed catalog p w =
    match listing w with
    | Raise e => (Raise e, w)
    | Ok l =>
        match (status p w).1 with
        | Raise e => handled (on_install_error p) e w
        | Ok st =>
            if bool_decide (st ≠ MISSING) then (Ok false, w) else
            match wanted p w with
            | Raise e => handled (on_install_error p) e w
            | Ok false => (Ok false, w)
            | Ok true =>
                if bool_decide (missing_deps_of p l ≠ [])
                then (Raise (OpenSearchPluginMissingDepsError (name p)
                               (missing_deps_of p l)), w)
                else match cmd_install w (name p) with
                     | CmdOk _ => (Ok true, after_install (name p) w)
                     | CmdFail msg =>
                         handled (on_install_error p) (OpenSearchCmdError msg)
                                 (record (EvInstall (name p)) w)
                     end
            end
        end
    end.
Proof.
  unfold _install_if_needed.
  rewrite bind_read by apply installed_plugins_ro.
  rewrite installed_plugins_eq. simpl.
  destruct (listing w) as [l|e]; [|done].
  unfold try_except, handled.
  rewrite bind_read by apply status_ro.
  destruct (status p w).1 as [st|e]; [|done].
  destruct (bool_decide (st ≠ MISSING)); [done|].
  unfold bind at 1. rewrite bind_read by apply user_requested_ro.
  destruct (wanted p w) as [[|]|e]; simpl; try done.
  fold (missing_deps_of p l).
  destruct (bool_decide (missing_deps_of p l ≠ [])); [done|].
  unfold bind, Collab.run_bin_install, after_install, ret.
  destruct (cmd_install w (name p)); simpl; [|done].
  by destruct (cmd_list w).
Qed.

(** [_configure_if_needed], branch by branch. *)
Lemma configure_eq p w :
  _configure_if_needed catalog p w =
    match wanted p w with
    | Raise e => handled on_KeyError e w
    | Ok false => (Ok false, w)
    | Ok true =>
        match (status p w).1 with
        | Raise e => handled on_KeyError e w
        | Ok st =>
            if bool_decide (st ≠ INSTALLED) then (Ok false, w) else
            match config p with
            | Raise e => handled on_KeyError e w
            | Ok cfg => _apply_config cfg w
            end
        end
    end.
Proof.
  unfold _configure_if_needed, try_except, handled.
  rewrite bind_read by apply user_requested_ro.
  destruct (wanted p w) as [[|]|e]; simpl; try done.
  unfold bind at 1. rewrite bind_read by apply status_ro.
  destruct (status p w).1 as [st|e]; simpl; [|done].
  destruct (bool_decide (st ≠ INSTALLED)); [done|].
  unfold bind at 1, lift.
  destruct (config p) as [cfg|e]; [|done].
  pose proof (apply_config_ok cfg w) as Hok.
  by destruct (_apply_config cfg w) as [[b|e] w'].
Qed.

(** [_disable_if_needed], branch by branch. *)
Lemma disable_eq p w :
  _disable_if_needed catalog p w =
    match wanted p w with
    | Raise e => handled on_KeyError e w
    | Ok true => (Ok false, w)
    | Ok false =>
        match (status p w).1 with
        | Raise e => handled on_KeyError e w
        | Ok st =>
            if bool_decide (st ∉ [ENABLED; WAITING_FOR_UPGRADE]) then (Ok false, w) else
            match disable p with
            | Raise e => handled on_KeyError e w
            | Ok cfg => _apply_config cfg w
            end
        end
    end.
Proof.
  unfold _disable_if_needed, try_except, handled.
  rewrite bind_read by apply user_requested_ro.
  destruct (wanted p w) as [[|]|e]; simpl; try done.
  unfold bind at 1. rewrite bind_read by apply status_ro.
  destruct (status p w).1 as [st|e]; simpl; [|done].
  destruct (bool_decide (st ∉ [ENABLED; WAITING_FOR_UPGRADE])); [done|].
  unfold bind at 1, lift.
  destruct (disable p) as [cfg|e]; [|done].
  pose proof (apply_config_ok cfg w) as Hok.
  by destruct (_apply_config cfg w) as [[b|e] w'].
Qed.

(** A handler runs in the world the exception left. *)
Lemma handled_install_world p e w : (handled (on_install_error p) e w).2 = w.
Proof.
  unfold handled, on_install_error.
  destruct e; try done. by destruct (Py.contains _ _).
Qed.

Lemma handled_KeyError_world {A} e w : (handled (@on_KeyError A) e w).2 = w.
Proof. unfold handled, on_KeyError. by destruct e. Qed.

End Phases.

(** ** The readiness test of [run] *)

Section Gate.
Variable catalog : Catalog.

(** The opening test of [run], answer by answer of the probe. *)
Lemma readiness_gate_eq w :
  readiness_gate w =
    if started w then (Ok tt, w) else
    if bool_decide (health_seq w (health_calls w) ≠ GREEN)
    then (Raise OpenSearchPluginRelationClusterNotReadyError,
          set_health_calls (S (health_calls w)) w)
    else if bool_decide (health_seq w (S (health_calls w)) ≠ YELLOW)
    then (Raise OpenSearchPluginRelationClusterNotReadyError,
          set_health_calls (S (S (health_calls w))) w)
    else (Ok tt, set_health_calls (S (S (health_calls w))) w).
Proof.
  unfold readiness_gate, bind, Collab.is_started, Collab.health_apply, gets. simpl.
  destruct (started w); simpl; [done|].
  destruct (bool_decide (health_seq w (health_calls w) ≠ GREEN)); simpl; [done|].
  by destruct (bool_decide (health_seq w (S (health_calls w)) ≠ YELLOW)).
Qed.

(** The test touches nothing but the count of probe calls. *)
Lemma readiness_gate_frame w :
  ∃ n, (readiness_gate w).2 = set_health_calls n w.
Proof.
  rewrite readiness_gate_eq.
  destruct (started w) eqn:Hs.
  - exists (health_calls w). by destruct w.
  - repeat case_bool_decide; eauto.
Qed.

(** The test raises nothing but the cluster-not-ready error. *)
Lemma readiness_gate_raises w e :
  (readiness_gate w).1 = Raise e → e = OpenSearchPluginRelationClusterNotReadyError.
Proof.
  rewrite readiness_gate_eq.
  destruct (started w); [done|].
  repeat case_bool_decide; simpl; congruence.
Qed.

(** With a probe that answers the same colour twice, the test depends on
    the service state alone. *)
Lemma readiness_gate_steady w :
  health_seq w (S (health_calls w)) = health_seq w (health_calls w) →
  ((readiness_gate w).1 = Raise OpenSearchPluginRelationClusterNotReadyError
   ↔ started w = false).
Proof.
  intros Hsteady. rewrite readiness_gate_eq, Hsteady.
  destruct (started w); [done|].
  destruct (health_seq w (health_calls w)); repeat case_bool_decide; naive_solver.
Qed.

End Gate.

(** ** The statements of the specification *)

(** C1. The specification has [run] raise the cluster-not-ready condition
    exactly when it is not the case that the service runs with health GREEN
    or YELLOW. The code raises exactly when the service is not started and
    the probe does not answer GREEN and then YELLOW: a started service is
    never asked for its health. So with the service running and health RED
    the cycle is not stopped; on the sample node it goes on to install and
    configure a plugin. *)
Theorem C1_started_service_passes_whatever_the_health :
  (∀ w, (readiness_gate w).1 = Raise OpenSearchPluginRelationClusterNotReadyError
        ↔ started w = false
          ∧ ¬ (health_seq w (health_calls w) = GREEN
               ∧ health_seq w (S (health_calls w)) = YELLOW)) ∧
  let w := Sample.node true RED (CmdOk "") (CmdOk "") ∅ Sample.knn_on in
  (readiness_gate w).1 = Ok tt ∧
  (run Sample.catalog w).1 = Ok true ∧
  log (run Sample.catalog w).2 =
    [ EvInstall "opensearch-knn"; EvKeystoreDelete []; EvKeystoreAdd ∅;
      EvConfigAdd {[ "knn.plugin.enabled" := "true" ]} ].
Proof.
  split.
  - intros w. rewrite readiness_gate_eq.
    destruct (started w); [naive_solver|].
    repeat case_bool_decide; naive_solver.
  - vm_compute. done.
Qed.

(** C9. When the readiness test fails, [run] raises the cluster-not-ready
    error at once: the configuration store, the keystore, the installed
    plugins and the log of mutating calls are as they were. *)
Theorem C9_gate_failure_mutates_nothing (catalog : Catalog) (w : World) (e : Exn) :
  (readiness_gate w).1 = Raise e →
  (run catalog w).1 = Raise OpenSearchPluginRelationClusterNotReadyError ∧
  config_store (run catalog w).2 = config_store w ∧
  keystore (run catalog w).2 = keystore w ∧
  cmd_list (run catalog w).2 = cmd_list w ∧
  log (run catalog w).2 = log w.
Proof.
  intros Hgate.
  pose proof (readiness_gate_raises w e Hgate) as ->.
  destruct (readiness_gate_frame w) as [n Hframe].
  unfold run, bind.
  destruct (readiness_gate w) as [[[]|e] w'] eqn:Hrun; simpl in *; [done|].
  injection Hgate as ->. by subst w'.
Qed.

Lemma C9_witness :
  let w := Sample.node false RED (CmdOk "") (CmdOk "") ∅ Sample.knn_on in
  (run Sample.catalog w).1 = Raise OpenSearchPluginRelationClusterNotReadyError ∧
  config_store (run Sample.catalog w).2 = config_store w ∧
  keystore (run Sample.catalog w).2 = keystore w ∧
  cmd_list (run Sample.catalog w).2 = cmd_list w ∧
  log (run Sample.catalog w).2 = log w.
Proof.
  apply (C9_gate_failure_mutates_nothing Sample.catalog _
           OpenSearchPluginRelationClusterNotReadyError).
  vm_compute. reflexivity.
Defined.

(** The comparison of [_needs_upgrade] is the comparison of the two lists
    of components, each cut to the length of the shorter. *)
Lemma versions_differ_prefix (v pv : string) :
  let vs := Py.split Py.DOT v in
  let pvs := Py.split Py.DOT pv in
  let n := Nat.min (length pvs) (length vs) in
  versions_differ v pv = bool_decide (take n vs ≠ take n pvs).
Proof.
  intros vs pvs n. unfold versions_differ. fold vs pvs n.
  case_bool_decide as Hne.
  - apply negb_true_iff, String.eqb_neq. intros Hjoin. apply Hne.
    apply (PyFacts.join_inj Py.DOT); [| | |done].
    + rewrite !length_take. lia.
    + apply Forall_take, PyFacts.split_no_sep.
    + apply Forall_take, PyFacts.split_no_sep.
  - rewrite Hne. apply negb_false_iff, String.eqb_refl.
Qed.

(** C3. With the listing read, [status] is MISSING exactly when the name
    is not in the listing; otherwise INSTALLED exactly when the entries to
    add are not, as a mapping, what the configuration store answers for them
    (a [config()] that raises a key error or a plugin error counts as not
    matching: the enabled-check catches it); otherwise WAITING_FOR_UPGRADE
    exactly when the two versions, each cut to as many dot-separated
    components as both have, are not the same; otherwise ENABLED. Any other
    exception of [config()] is the one case in which an installed plugin gets
    no status. *)
Theorem C3_status_tests_in_order (w : World) (p : OpenSearchPlugin) (out : string) :
  cmd_list w = CmdOk out →
  let l := Py.split Py.LF out in
  let vs := Py.split Py.DOT (opensearch_version w) in
  let pvs := Py.split Py.DOT (version p) in
  let n := Nat.min (length pvs) (length vs) in
  let matching :=
    ∃ cfg, config p = Ok cfg
           ∧ (Collab.get_plugin (config_entries_to_add cfg) w).1
             = Ok (config_entries_to_add cfg) in
  let differing :=
    ∃ cfg applied, config p = Ok cfg
                   ∧ (Collab.get_plugin (config_entries_to_add cfg) w).1 = Ok applied
                   ∧ config_entries_to_add cfg ≠ applied in
  let unreadable :=
    ∃ e, config p = Raise e ∧ is_KeyError e || is_OpenSearchPluginError e = true in
  ((status p w).1 = Ok MISSING ↔ name p ∉ l) ∧
  ((status p w).1 = Ok INSTALLED ↔ name p ∈ l ∧ (differing ∨ unreadable)) ∧
  ((status p w).1 = Ok WAITING_FOR_UPGRADE
     ↔ name p ∈ l ∧ matching ∧ take n vs ≠ take n pvs) ∧
  ((status p w).1 = Ok ENABLED
     ↔ name p ∈ l ∧ matching ∧ take n vs = take n pvs) ∧
  (∀ e, (status p w).1 = Raise e
        ↔ name p ∈ l ∧ config p = Raise e
          ∧ is_KeyError e || is_OpenSearchPluginError e = false).
Proof.
  intros Hlist l vs pvs n matching differing unreadable.
  assert (matching ↔ ∃ cfg, config p = Ok cfg
            ∧ config_entries_to_add cfg = applied_entries w (config_entries_to_add cfg)) as Hm.
  { subst matching. split; intros (cfg & Hc & H); exists cfg; (split; [done|]).
    - injection H as H'. symmetry. exact H'.
    - unfold Collab.get_plugin, gets. simpl. f_equal. symmetry. exact H. }
  assert (differing ↔ ∃ cfg, config p = Ok cfg
            ∧ config_entries_to_add cfg ≠ applied_entries w (config_entries_to_add cfg)) as Hd.
  { subst differing. split.
    - intros (cfg & a & Hc & H & Hne). exists cfg. split; [done|].
      injection H as H'. intros Heq. apply Hne. rewrite <- H'. exact Heq.
    - intros (cfg & Hc & Hne). by exists cfg, (applied_entries w (config_entries_to_add cfg)). }
  rewrite Hm, Hd. clear Hm Hd. subst unreadable. clearbody matching differing.
  rewrite status_eq. unfold listing. rewrite Hlist. simpl. fold l.
  rewrite versions_differ_prefix. cbv zeta. fold vs pvs n.
  case_bool_decide as Hin.
  2: { split_and!; try (intros e); split; try done; naive_solver. }
  destruct (config p) as [cfg|e] eqn:Hcfg.
  - rewrite (is_enabled_ok w p cfg Hcfg). simpl.
    case_bool_decide as Heq; [case_bool_decide as Hv|];
      split_and!; try (intros e); (split; [try done; eauto 10|try done]).
    all: try (intros (_ & [(c & [= <-] & ?)|(e & ? & _)]); done).
    all: try (intros (_ & (c & [= <-] & ?) & ?); done).
    all: try (intros (_ & ? & _); done).
  - destruct (is_KeyError e || is_OpenSearchPluginError e) eqn:He.
    + rewrite (is_enabled_caught w p e Hcfg He). simpl.
      split_and!; try (intros e'); (split; [try done; eauto 10|try done]).
      all: try (intros (_ & (c & ? & _) & _); done).
      intros (_ & [= <-] & ?). congruence.
    + rewrite (is_enabled_passed w p e Hcfg He). simpl.
      split_and!; try (intros e'); (split; [try done|try done]).
      all: try (intros (_ & (c & ? & _) & _); done).
      * intros (_ & [(c & ? & _)|(e' & [= <-] & ?)]); [done|congruence].
      * by intros [= <-].
      * by intros (_ & [= <-] & _).
Qed.

Lemma C3_witness :
  let p := Sample.knn "2.9.0" in
  let w := Sample.node true GREEN (CmdOk "opensearch-knn") (CmdOk "")
             {[ "knn.plugin.enabled" := "true" ]} Sample.knn_on in
  (status p w).1 = Ok ENABLED
  ↔ name p ∈ Py.split Py.LF "opensearch-knn"
    ∧ (∃ cfg, config p = Ok cfg
              ∧ (Collab.get_plugin (config_entries_to_add cfg) w).1
                = Ok (config_entries_to_add cfg))
    ∧ take 3 (Py.split Py.DOT "2.9.0") = take 3 (Py.split Py.DOT "2.9.0").
Proof.
  intros p w.
  exact (proj1 (proj2 (proj2 (proj2
    (C3_status_tests_in_order w p "opensearch-knn" eq_refl))))).
Defined.

(** C5. [_needs_upgrade] compares the components the two version strings
    share: it answers no exactly when the two lists of dot-separated
    components, cut to the length of the shorter, are equal. For a service
    at "2.9.0" and a plugin at "2.9.0.1" both are cut to 2, 9, 0: no upgrade
    is pending, and a plugin that is installed with its entries applied is
    ENABLED. *)
Theorem C5_versions_compared_on_shared_prefix (w : World) (p : OpenSearchPlugin) :
  let vs := Py.split Py.DOT (opensearch_version w) in
  let pvs := Py.split Py.DOT (version p) in
  let n := Nat.min (length pvs) (length vs) in
  ((_needs_upgrade p w).1 = Ok false ↔ take n vs = take n pvs) ∧
  ((_needs_upgrade p w).1 = Ok true ↔ take n vs ≠ take n pvs) ∧
  (opensearch_version w = "2.9.0" → version p = "2.9.0.1" →
   take n vs = ["2"; "9"; "0"] ∧ take n pvs = ["2"; "9"; "0"] ∧
   (_needs_upgrade p w).1 = Ok false ∧
   ((_is_installed p w).1 = Ok true → (_is_enabled p w).1 = Ok true →
    (status p w).1 = Ok ENABLED)).
Proof.
  intros vs pvs n.
  assert ((_needs_upgrade p w).1 = Ok (bool_decide (take n vs ≠ take n pvs))) as Hup.
  { unfold _needs_upgrade, gets. simpl. f_equal. apply versions_differ_prefix. }
  split; [|split].
  - rewrite Hup. case_bool_decide as H; naive_solver.
  - rewrite Hup. case_bool_decide as H; naive_solver.
  - intros Hv Hpv.
    assert (versions_differ (opensearch_version w) (version p) = false) as Hsame
      by (by rewrite Hv, Hpv).
    subst vs pvs n. rewrite Hv, Hpv in *.
    split; [done|]. split; [done|]. split; [done|].
    intros Hinst Hen. rewrite is_installed_eq in Hinst.
    rewrite status_eq, Hen. simpl.
    destruct (listing w) as [l|e]; [|done].
    injection Hinst as ->. by rewrite Hv, Hpv.
Qed.

Lemma C5_witness :
  let p := Sample.knn "2.9.0.1" in
  let w := Sample.node true GREEN (CmdOk "opensearch-knn") (CmdOk "")
             {[ "knn.plugin.enabled" := "true" ]} Sample.knn_on in
  (_needs_upgrade p w).1 = Ok false ∧ (status p w).1 = Ok ENABLED.
Proof.
  intros p w.
  destruct (C5_versions_compared_on_shared_prefix w p) as (_ & _ & Hscenario).
  destruct (Hscenario eq_refl eq_refl) as (_ & _ & Hup & Hstatus).
  split; [exact Hup|].
  apply Hstatus; vm_compute; reflexivity.
Defined.

(** ** The desired-state resolver *)

Section Resolver.
Variable catalog : Catalog.

Lemma is_plugin_relation_set_eq w d :
  (_is_plugin_relation_set (pd_relation d) w).1 = Ok (relation_gate w d).
Proof.
  unfold _is_plugin_relation_set, relation_gate, name_truthy.
  destruct (pd_relation d) as [r|]; simpl; [|done].
  destruct (String.eqb r EmptyString); simpl; [done|].
  unfold bind, Collab.get_relation, gets.
  by destruct (relations w !! r).
Qed.

Lemma user_requested_eq p w :
  _user_requested_to_enable catalog p w =
    (match catalog_lookup catalog (name p) with
     | None => Raise (KeyError (name p))
     | Some d => Ok (config_gate w d || relation_gate w d)
     end, w).
Proof.
  unfold _user_requested_to_enable.
  rewrite bind_read by apply read_only_lift. unfold lift at 1. simpl.
  destruct (catalog_lookup catalog (name p)) as [d|]; [|done].
  rewrite bind_read by apply read_only_gets.
  change (Collab.charm_config_get (pd_config d) w).1 with (Ok (config_gate w d)).
  destruct (config_gate w d); simpl; [done|].
  rewrite bind_read by apply is_plugin_relation_set_ro.
  rewrite is_plugin_relation_set_eq.
  by destruct (relation_gate w d).
Qed.

(** The answer of the resolver depends on the charm configuration and the
    relations only. *)
Lemma user_requested_inputs p w w' :
  charm_config w' = charm_config w → relations w' = relations w →
  (_user_requested_to_enable catalog p w').1 = (_user_requested_to_enable catalog p w).1.
Proof.
  intros Hc Hr. rewrite !user_requested_eq. simpl.
  unfold config_gate, relation_gate. by rewrite Hc, Hr.
Qed.

End Resolver.

(** C4, as the code has it. For a plugin of the catalog the resolver
    answers, and it answers true exactly when the gating configuration
    option is set to a truthy value or the gating relation is there with at
    least one remote unit. An entry with neither an option nor a relation
    name can satisfy neither side: for it the resolver answers false, always. *)
Theorem C4_resolver_needs_a_gate (catalog : Catalog) (p : OpenSearchPlugin)
    (w : World) (d : PluginData) :
  catalog_lookup catalog (name p) = Some d →
  ((_user_requested_to_enable catalog p w).1 = Ok true
   ↔ (∃ k v, pd_config d = Some k ∧ charm_config w !! k = Some v ∧ truthy v = true)
     ∨ (∃ r rel, pd_relation d = Some r ∧ r ≠ EmptyString
                 ∧ relations w !! r = Some rel ∧ 0 < size (units rel))) ∧
  ((_user_requested_to_enable catalog p w).1 = Ok true
   ∨ (_user_requested_to_enable catalog p w).1 = Ok false) ∧
  (pd_config d = None → pd_relation d = None →
   (_user_requested_to_enable catalog p w).1 = Ok false).
Proof.
  intros Hd. rewrite user_requested_eq, Hd. simpl.
  split; [|split].
  - assert (config_gate w d = true
            ↔ ∃ k v, pd_config d = Some k ∧ charm_config w !! k = Some v
                     ∧ truthy v = true) as Hconfig.
    { unfold config_gate. destruct (pd_config d) as [k|]; [|naive_solver].
      destruct (charm_config w !! k) as [v|] eqn:Hk; naive_solver. }
    assert (relation_gate w d = true
            ↔ ∃ r rel, pd_relation d = Some r ∧ r ≠ EmptyString
                       ∧ relations w !! r = Some rel ∧ 0 < size (units rel)) as Hrel.
    { unfold relation_gate. destruct (pd_relation d) as [r|]; [|naive_solver].
      destruct (String.eqb_spec r EmptyString) as [->|Hne]; simpl; [naive_solver|].
      destruct (relations w !! r) as [rel|] eqn:Hr; [|naive_solver].
      case_bool_decide; naive_solver. }
    rewrite <- Hconfig, <- Hrel.
    destruct (config_gate w d), (relation_gate w d); naive_solver.
  - destruct (config_gate w d || relation_gate w d); auto.
  - intros Hc Hr. unfold config_gate, relation_gate. by rewrite Hc, Hr.
Qed.

Lemma C4_witness :
  let w := Sample.node true GREEN (CmdOk "") (CmdOk "") ∅ Sample.knn_on in
  (_user_requested_to_enable Sample.catalog (Sample.knn "2.9.0") w).1 = Ok true.
Proof.
  intros w.
  apply (C4_resolver_needs_a_gate Sample.catalog (Sample.knn "2.9.0") w
           {| pd_class := λ _ _, Sample.knn "2.9.0.0";
              pd_config := Some "plugin_opensearch_knn";
              pd_relation := None |} eq_refl).
  left. exists "plugin_opensearch_knn", (CBool true).
  split; [reflexivity|]. split; [vm_compute; reflexivity|reflexivity].
Defined.

(** C4, as the specification has it, fails: a catalog entry without option
    and without relation name is not taken as requested. *)
Lemma C4_counterexample :
  ¬ (∀ (catalog : Catalog) (p : OpenSearchPlugin) (w : World) (d : PluginData),
       catalog_lookup catalog (name p) = Some d →
       pd_config d = None → pd_relation d = None →
       (_user_requested_to_enable catalog p w).1 = Ok true).
Proof.
  intros Hclaim.
  pose (d := {| pd_class := λ _ _, Sample.knn "2.9.0";
                pd_config := None; pd_relation := None |}).
  specialize (Hclaim [("opensearch-knn", d)] (Sample.knn "2.9.0")
                (Sample.node true GREEN (CmdOk "") (CmdOk "") ∅ Sample.knn_on)
                d eq_refl eq_refl eq_refl).
  vm_compute in Hclaim. discriminate.
Qed.

(** The catalog of the module has no such entry: each of its plugins has
    an option or a relation name. *)
Lemma ConfigExposedPlugins_gated knn_class backup_class key d :
  catalog_lookup (ConfigExposedPlugins knn_class backup_class) key = Some d →
  pd_config d ≠ None ∨ pd_relation d ≠ None.
Proof.
  unfold ConfigExposedPlugins, catalog_lookup.
  destruct (String.eqb "opensearch-knn" key).
  - intros [= <-]. by left.
  - destruct (String.eqb "repository-s3" key); [|done].
    intros [= <-]. by right.
Qed.

(** ** The cycle *)

Section Cycle.
Variable catalog : Catalog.

(** Building the descriptors raises nothing and gives one per entry. *)
Lemma extra_conf_ok d w : ∃ x, _extra_conf d w = (Ok x, w).
Proof.
  unfold _extra_conf, bind, Collab.get_relation, gets, ret.
  destruct (name_truthy (pd_relation d)); [|by eauto].
  destruct (relations w !! default EmptyString (pd_relation d)); eauto.
Qed.

Lemma plugins_of_ok entries w :
  ∃ ps, plugins_of entries w = (Ok ps, w) ∧ length ps = length entries.
Proof.
  induction entries as [|[k d] entries (ps & Hps & Hlen)]; simpl; [by exists []|].
  destruct (extra_conf_ok d w) as [x Hx].
  exists (pd_class d (plugins_path w) x :: ps).
  unfold bind, gets. rewrite Hx, Hps. simpl. by rewrite Hlen.
Qed.

(** [run] once the readiness test has passed. *)
Lemma run_after_gate w w' :
  readiness_gate w = (Ok tt, w') →
  ∃ ps, length ps = length catalog ∧ run catalog w = run_loop catalog ps false w'.
Proof.
  intros Hgate.
  destruct (plugins_of_ok catalog w') as (ps & Hps & Hlen).
  exists ps. split; [done|].
  unfold run, plugins, bind. by rewrite Hgate, Hps.
Qed.

End Cycle.

(** C10. When the listing command fails, [status] raises the plugin error
    made from the command's message and returns no state; so does the
    install phase, which opens every plugin's turn, so does the configure
    or the disable phase wherever it comes to ask for the status, and so
    does the whole cycle, with nothing written. *)
Theorem C10_listing_failure_is_raised (catalog : Catalog) (w : World)
    (p : OpenSearchPlugin) (msg : string) :
  cmd_list w = CmdFail msg →
  let err := OpenSearchPluginError ("Failed to list plugins: " ++ msg) in
  status p w = (Raise err, w) ∧
  _install_if_needed catalog p w = (Raise err, w) ∧
  ((_user_requested_to_enable catalog p w).1 = Ok true →
   _configure_if_needed catalog p w = (Raise err, w)) ∧
  ((_user_requested_to_enable catalog p w).1 = Ok false →
   _disable_if_needed catalog p w = (Raise err, w)) ∧
  ((readiness_gate w).1 = Ok tt → catalog ≠ [] →
   (run catalog w).1 = Raise err ∧
   config_store (run catalog w).2 = config_store w ∧
   keystore (run catalog w).2 = keystore w ∧
   log (run catalog w).2 = log w).
Proof.
  intros Hlist err.
  assert (∀ w', cmd_list w' = CmdFail msg → listing w' = Raise err) as Hlisting.
  { intros w' H. unfold listing. by rewrite H. }
  assert (∀ q w', cmd_list w' = CmdFail msg → status q w' = (Raise err, w')) as Hstatus.
  { intros q w' H. by rewrite status_eq, (Hlisting w' H). }
  assert (∀ q w', cmd_list w' = CmdFail msg →
                  _install_if_needed catalog q w' = (Raise err, w')) as Hinstall.
  { intros q w' H. by rewrite install_eq, (Hlisting w' H). }
  split; [by apply Hstatus|]. split; [by apply Hinstall|].
  split; [|split].
  - intros Hwanted. by rewrite configure_eq, Hwanted, Hstatus.
  - intros Hwanted. by rewrite disable_eq, Hwanted, Hstatus.
  - intros Hgate Hne.
    destruct (readiness_gate_frame w) as [n Hframe].
    destruct (readiness_gate w) as [[[]|e] w'] eqn:Hrun; simpl in *; [|done].
    destruct (run_after_gate catalog w w' Hrun) as (ps & Hlen & ->).
    destruct ps as [|q ps]; [by destruct catalog|].
    simpl. unfold run_plugin.
    rewrite (bind_raise _ _ w' err w'); [by subst w'|].
    apply bind_raise, Hinstall. by subst w'.
Qed.

Lemma C10_witness :
  let w := Sample.node true GREEN (CmdFail "exit status 1") (CmdOk "") ∅ Sample.knn_on in
  let err := OpenSearchPluginError "Failed to list plugins: exit status 1" in
  status (Sample.knn "2.9.0") w = (Raise err, w) ∧ (run Sample.catalog w).1 = Raise err.
Proof.
  intros w err.
  destruct (C10_listing_failure_is_raised Sample.catalog w (Sample.knn "2.9.0")
              "exit status 1" eq_refl) as (Hstatus & _ & _ & _ & Hrun).
  split; [exact Hstatus|].
  apply Hrun; [reflexivity|discriminate].
Defined.

(** By contrast a lookup error of the plugin's own [config()] is caught by
    the enabled-check: the installed plugin is reported INSTALLED. *)
Lemma status_config_error_downgraded w p l e :
  listing w = Ok l → name p ∈ l →
  config p = Raise e → is_KeyError e || is_OpenSearchPluginError e = true →
  status p w = (Ok INSTALLED, w).
Proof.
  intros Hl Hin Hc He.
  rewrite status_eq, Hl, (is_enabled_caught w p e Hc He). simpl.
  by rewrite bool_decide_eq_true_2.
Qed.

(** The configure phase of a plugin that is not asked for returns before
    the status is read, whatever the listing command would answer. *)
Lemma configure_unwanted catalog p w :
  (_user_requested_to_enable catalog p w).1 = Ok false →
  _configure_if_needed catalog p w = (Ok false, w).
Proof. intros H. by rewrite configure_eq, H. Qed.

(** ** The install phase *)

Section Install.
Variable catalog : Catalog.

(** Some dependency is left out of the listing exactly when the list of
    missing dependencies is not empty. *)
Lemma missing_deps_nonempty p l :
  missing_deps_of p l ≠ [] ↔ ∃ dep, dep ∈ dependencies p ∧ dep ∉ l.
Proof.
  unfold missing_deps_of. split.
  - intros Hne. destruct (filter _ _) as [|dep rest] eqn:Hf; [done|].
    exists dep.
    assert (dep ∈ filter (λ dep, dep ∉ l) (dependencies p)) as Hin
      by (rewrite Hf; by left).
    apply list_elem_of_filter in Hin. tauto.
  - intros (dep & Hin & Hout) Hnil.
    assert (dep ∈ filter (λ dep, dep ∉ l) (dependencies p)) as H
      by (by apply list_elem_of_filter).
    rewrite Hnil in H. by apply elem_of_nil in H.
Qed.

Lemma missing_deps_empty p l :
  missing_deps_of p l = [] ↔ ∀ dep, dep ∈ dependencies p → dep ∈ l.
Proof.
  split.
  - intros Hnil dep Hin. destruct (decide (dep ∈ l)) as [|Hout]; [done|].
    exfalso. apply (proj2 (missing_deps_nonempty p l)); eauto.
  - intros Hall. destruct (decide (missing_deps_of p l = [])) as [|Hne]; [done|].
    apply missing_deps_nonempty in Hne as (dep & Hin & Hout). naive_solver.
Qed.

(** The install command is called in one branch only: the listing was read,
    the plugin is MISSING and asked for, and no dependency is missing. *)
Lemma install_logged_inv p w :
  log (_install_if_needed catalog p w).2 ≠ log w →
  ∃ l, listing w = Ok l ∧ (status p w).1 = Ok MISSING
       ∧ (_user_requested_to_enable catalog p w).1 = Ok true
       ∧ missing_deps_of p l = []
       ∧ log (_install_if_needed catalog p w).2 = (log w ++ [EvInstall (name p)])%list.
Proof.
  rewrite install_eq.
  destruct (listing w) as [l|e]; [|done].
  destruct (status p w).1 as [st|e]; [|by rewrite handled_install_world].
  case_bool_decide as Hst; [done|].
  destruct (_user_requested_to_enable catalog p w).1 as [[|]|e];
    [|done|by rewrite handled_install_world].
  case_bool_decide as Hdeps; [done|].
  intros _. subst st. exists l. repeat split; try done.
  destruct (cmd_install w (name p)).
  - unfold after_install. by destruct (cmd_list w).
  - by rewrite handled_install_world.
Qed.

End Install.

(** C6. For a plugin that is MISSING and asked for: if a declared dependency
    is not in the installed-plugin list, the install phase raises the
    missing-dependencies error and leaves the world as it was, so the install
    command is not called; if every dependency is in the list the command is
    called. And whenever the install phase calls the command, every declared
    dependency is in the list. *)
Theorem C6_install_waits_for_dependencies (catalog : Catalog)
    (p : OpenSearchPlugin) (w : World) :
  (∀ l, (_installed_plugins w).1 = Ok l →
        (status p w).1 = Ok MISSING →
        (_user_requested_to_enable catalog p w).1 = Ok true →
        ((∃ dep, dep ∈ dependencies p ∧ dep ∉ l) →
         _install_if_needed catalog p w =
           (Raise (OpenSearchPluginMissingDepsError (name p)
                     (filter (λ dep, dep ∉ l) (dependencies p))), w)) ∧
        ((∀ dep, dep ∈ dependencies p → dep ∈ l) →
         log (_install_if_needed catalog p w).2
         = (log w ++ [EvInstall (name p)])%list)) ∧
  (log (_install_if_needed catalog p w).2 ≠ log w →
   ∃ l, (_installed_plugins w).1 = Ok l ∧ ∀ dep, dep ∈ dependencies p → dep ∈ l).
Proof.
  split.
  - intros l Hl Hst Hwanted. rewrite installed_plugins_eq in Hl. simpl in Hl.
    rewrite install_eq, Hl, Hst, Hwanted.
    rewrite bool_decide_eq_false_2 by naive_solver.
    split.
    + intros Hdep%missing_deps_nonempty. by rewrite bool_decide_eq_true_2.
    + intros Hall%missing_deps_empty.
      rewrite bool_decide_eq_false_2 by naive_solver.
      destruct (cmd_install w (name p)).
      * unfold after_install. by destruct (cmd_list w).
      * by rewrite handled_install_world.
  - intros Hlog. apply install_logged_inv in Hlog as (l & Hl & _ & _ & Hdeps & _).
    exists l. rewrite installed_plugins_eq. split; [done|].
    by apply missing_deps_empty.
Qed.

Lemma C6_witness :
  let p := Sample.s3 "2.9.0" in
  let w := Sample.node true GREEN (CmdOk "") (CmdOk "") ∅ ∅ in
  let w' := {| started := started w; health_seq := health_seq w;
               health_calls := health_calls w;
               opensearch_version := opensearch_version w;
               plugins_path := plugins_path w;
               cmd_list := cmd_list w; cmd_install := cmd_install w;
               config_store := config_store w; keystore := keystore w;
               charm_config := charm_config w;
               relations := {[ "s3-credentials" :=
                                 {| units := {[ "s3-integrator/0" ]};
                                    app_data := ∅ |} ]};
               log := log w |} in
  _install_if_needed Sample.catalog p w' =
    (Raise (OpenSearchPluginMissingDepsError "repository-s3" ["opensearch-knn"]), w').
Proof.
  intros p w w'.
  destruct (C6_install_waits_for_dependencies Sample.catalog p w') as [Hgated _].
  destruct (Hgated [EmptyString]) as [Hraise _].
  - reflexivity.
  - vm_compute. reflexivity.
  - vm_compute. reflexivity.
  - apply Hraise. exists "opensearch-knn". split.
    + apply (bool_decide_unpack _). vm_compute. exact I.
    + apply (bool_decide_unpack _). vm_compute. exact I.
Defined.

(** [sub in s] holds exactly when [s] is some text, then [sub], then some text. *)
Lemma startswith_inv p s : Py.startswith p s = true → ∃ post, s = (p ++ post)%string.
Proof.
  revert s. induction p as [|a p IH]; intros s H.
  - by exists s.
  - destruct s as [|b s]; [done|]. simpl in H.
    apply andb_true_iff in H as [Hab Hps].
    apply Ascii.eqb_eq in Hab as ->.
    destruct (IH s Hps) as [post ->]. by exists post.
Qed.

Lemma contains_iff sub s :
  Py.contains sub s = true ↔ ∃ pre post, s = (pre ++ sub ++ post)%string.
Proof.
  split.
  - induction s as [|c s IH]; simpl; intros H.
    + apply orb_true_iff in H as [H|H]; [|done].
      apply startswith_inv in H as [post ->]. by exists EmptyString, post.
    + apply orb_true_iff in H as [H|H].
      * apply startswith_inv in H as [post ->]. by exists EmptyString, post.
      * destruct (IH H) as (pre & post & ->). by exists (String c pre), post.
  - intros (pre & post & ->). apply PyFacts.contains_app.
Qed.

(** C7. For a plugin that is MISSING and asked for, with its dependencies
    in place: when the install command fails with a message that contains
    "already exists", the install phase raises nothing and returns false;
    when it fails with any other message, the phase raises the install error
    made from the plugin's name and that message. *)
Theorem C7_already_exists_is_benign (catalog : Catalog) (p : OpenSearchPlugin)
    (w : World) (l : list string) (msg : string) :
  (_installed_plugins w).1 = Ok l →
  (status p w).1 = Ok MISSING →
  (_user_requested_to_enable catalog p w).1 = Ok true →
  (∀ dep, dep ∈ dependencies p → dep ∈ l) →
  cmd_install w (name p) = CmdFail msg →
  ((∃ pre post, msg = (pre ++ "already exists" ++ post)%string) →
   (_install_if_needed catalog p w).1 = Ok false) ∧
  ((¬ ∃ pre post, msg = (pre ++ "already exists" ++ post)%string) →
   (_install_if_needed catalog p w).1 =
     Raise (OpenSearchPluginInstallError
              ("Failed to install plugin " ++ name p ++ ": " ++ msg))).
Proof.
  intros Hl Hst Hwanted Hdeps%missing_deps_empty Hcmd.
  rewrite installed_plugins_eq in Hl. simpl in Hl.
  rewrite install_eq, Hl, Hst, Hwanted, Hdeps, Hcmd.
  rewrite bool_decide_eq_false_2 by naive_solver.
  rewrite bool_decide_eq_false_2 by naive_solver.
  unfold handled, on_install_error.
  destruct (Py.contains "already exists" msg) eqn:Hin.
  - split; [done|]. intros Hout. exfalso. apply Hout. by apply contains_iff.
  - split; [|done]. intros Hyes%contains_iff. congruence.
Qed.

Lemma C7_witness :
  let p := Sample.knn "2.9.0" in
  let w := Sample.node true GREEN (CmdOk "")
             (CmdFail "plugin directory [/plugins/opensearch-knn] already exists")
             ∅ Sample.knn_on in
  (_install_if_needed Sample.catalog p w).1 = Ok false.
Proof.
  intros p w.
  apply (C7_already_exists_is_benign Sample.catalog p w [EmptyString]
           "plugin directory [/plugins/opensearch-knn] already exists").
  - reflexivity.
  - vm_compute. reflexivity.
  - vm_compute. reflexivity.
  - intros dep Hdep. apply elem_of_nil in Hdep. destruct Hdep.
  - reflexivity.
  - exists "plugin directory [/plugins/opensearch-knn] ", EmptyString. reflexivity.
Defined.

(** ** The configuration applier *)

(** The configuration store after [_apply_config]. *)
Lemma apply_config_store cfg w :
  config_store (_apply_config cfg w).2 =
    (if bool_decide (config_entries_to_add cfg ≠ ∅)
     then λ m, config_entries_to_add cfg ∪ m else id)
      ((if bool_decide (config_entries_to_del cfg ≠ [])
        then λ m, foldr delete m (config_entries_to_del cfg) else id)
         (config_store w)).
Proof.
  unfold _apply_config, bind, Collab.keystore_delete, Collab.keystore_add,
    Collab.delete_plugin, Collab.add_plugin, modify. simpl.
  destruct (bool_decide (config_entries_to_del cfg ≠ [])),
           (bool_decide (config_entries_to_add cfg ≠ ∅)); done.
Qed.

(** [_apply_config] leaves the inputs of the resolver and the node alone. *)
Lemma apply_config_frame cfg w :
  charm_config (_apply_config cfg w).2 = charm_config w ∧
  relations (_apply_config cfg w).2 = relations w ∧
  cmd_list (_apply_config cfg w).2 = cmd_list w.
Proof.
  unfold _apply_config, bind, Collab.keystore_delete, Collab.keystore_add,
    Collab.delete_plugin, Collab.add_plugin, modify. simpl.
  destruct (bool_decide (config_entries_to_del cfg ≠ [])),
           (bool_decide (config_entries_to_add cfg ≠ ∅)); done.
Qed.

(** [_apply_config] always logs its two keystore calls. *)
Lemma apply_config_logs cfg w :
  length (log w) < length (log (_apply_config cfg w).2).
Proof.
  unfold _apply_config, bind, Collab.keystore_delete, Collab.keystore_add,
    Collab.delete_plugin, Collab.add_plugin, modify. simpl.
  destruct (bool_decide (config_entries_to_del cfg ≠ [])),
           (bool_decide (config_entries_to_add cfg ≠ ∅)); simpl;
    rewrite ?length_app; simpl; lia.
Qed.

(** C8, as the code has it. [_apply_config] returns true exactly when the
    delta names a configuration entry to add or to delete, whether or not
    the store then differs. A delta with secret entries only returns false
    and leaves the configuration store as it was; a changed configuration
    store means true was returned; and applying the same delta again gives
    the same answer as the first time. *)
Theorem C8_apply_config_reports_the_delta (cfg : OpenSearchPluginConfig) (w : World) :
  ((_apply_config cfg w).1 = Ok true
   ↔ config_entries_to_add cfg ≠ ∅ ∨ config_entries_to_del cfg ≠ []) ∧
  ((_apply_config cfg w).1 = Ok false
   ↔ config_entries_to_add cfg = ∅ ∧ config_entries_to_del cfg = []) ∧
  (config_entries_to_add cfg = ∅ → config_entries_to_del cfg = [] →
   config_store (_apply_config cfg w).2 = config_store w) ∧
  (config_store (_apply_config cfg w).2 ≠ config_store w →
   (_apply_config cfg w).1 = Ok true) ∧
  (_apply_config cfg (_apply_config cfg w).2).1 = (_apply_config cfg w).1.
Proof.
  rewrite !apply_config_ok, apply_config_store.
  repeat case_bool_decide; simpl; naive_solver.
Qed.

Lemma C8_witness :
  let cfg := {| config_entries_to_add := ∅;
                config_entries_to_del := [];
                secret_entries_to_add := {[ "s3.client.default.access_key" := "k" ]};
                secret_entries_to_del := ["s3.client.default.secret_key"] |} in
  let w := Sample.node true GREEN (CmdOk "") (CmdOk "") ∅ ∅ in
  (_apply_config cfg w).1 = Ok false ∧
  config_store (_apply_config cfg w).2 = config_store w.
Proof.
  intros cfg w.
  destruct (C8_apply_config_reports_the_delta cfg w) as (_ & Hfalse & Hsame & _).
  split.
  - apply Hfalse. split; reflexivity.
  - apply Hsame; reflexivity.
Defined.

(** C8, as the specification has it, fails: applying a delta whose entries
    are already in the store returns true and changes nothing. *)
Lemma C8_counterexample :
  ¬ (∀ (cfg : OpenSearchPluginConfig) (w : World),
       (_apply_config cfg w).1 = Ok true
       ↔ config_store (_apply_config cfg w).2 ≠ config_store w).
Proof.
  intros Hclaim.
  pose (cfg := {| config_entries_to_add := {[ "knn.plugin.enabled" := "true" ]};
                  config_entries_to_del := [];
                  secret_entries_to_add := ∅;
                  secret_entries_to_del := [] |}).
  pose (w := Sample.node true GREEN (CmdOk "opensearch-knn") (CmdOk "")
               {[ "knn.plugin.enabled" := "true" ]} Sample.knn_on).
  destruct (Hclaim cfg w) as [Hchanged _].
  apply Hchanged; vm_compute; reflexivity.
Qed.

(** ** The three phases in one cycle *)

Section OneCycle.
Variable catalog : Catalog.

Local Abbreviation wanted p w := (_user_requested_to_enable catalog p w).1.

(** The turn of one plugin, phase by phase. *)
Lemma run_plugin_phases p r w :
  run_plugin catalog p r w =
    match _install_if_needed catalog p w with
    | (Raise e, w1) => (Raise e, w1)
    | (Ok a, w1) =>
        match _configure_if_needed catalog p w1 with
        | (Raise e, w2) => (Raise e, w2)
        | (Ok b, w2) =>
            match _disable_if_needed catalog p w2 with
            | (Raise e, w3) => (Raise e, w3)
            | (Ok c, w3) => (Ok (a || b || c || r), w3)
            end
        end
    end.
Proof. reflexivity. Qed.

(** [status] reads the listing, the configuration store and the service
    version, and nothing else. *)
Lemma status_depends p w w' :
  cmd_list w' = cmd_list w → config_store w' = config_store w →
  opensearch_version w' = opensearch_version w →
  (status p w').1 = (status p w).1.
Proof.
  intros Hl Hs Hv. rewrite !status_eq. simpl.
  unfold listing. rewrite Hl, Hv.
  assert ((_is_enabled p w').1 = (_is_enabled p w).1) as ->; [|done].
  destruct (config p) as [cfg|e] eqn:Hc.
  - rewrite !(is_enabled_ok _ p cfg Hc). simpl.
    unfold applied_entries. by rewrite Hs.
  - destruct (is_KeyError e || is_OpenSearchPluginError e) eqn:He.
    + by rewrite !(is_enabled_caught _ p e Hc He).
    + by rewrite !(is_enabled_passed _ p e Hc He).
Qed.

Lemma acted_log w w' : acted w w' = true → log w' ≠ log w.
Proof.
  unfold acted. intros H%negb_true_iff%Nat.eqb_neq Heq. by rewrite Heq in H.
Qed.

Lemma acted_same w : acted w w = false.
Proof. unfold acted. by rewrite Nat.eqb_refl. Qed.

(** The install phase acts only on a MISSING plugin that is asked for, and
    then either the command succeeded or only the log grew. *)
Lemma install_acted p w :
  acted w (_install_if_needed catalog p w).2 = true →
  (status p w).1 = Ok MISSING ∧ wanted p w = Ok true ∧
  (_install_if_needed catalog p w = (Ok true, after_install (name p) w)
   ∨ (_install_if_needed catalog p w).2 = record (EvInstall (name p)) w).
Proof.
  intros Hacted. pose proof (acted_log _ _ Hacted) as Hlog.
  destruct (install_logged_inv catalog p w Hlog) as (l & Hl & Hst & Hw & Hdeps & _).
  split; [done|]. split; [done|].
  rewrite install_eq, Hl, Hst, Hw, Hdeps.
  rewrite bool_decide_eq_false_2 by naive_solver.
  rewrite bool_decide_eq_false_2 by naive_solver.
  destruct (cmd_install w (name p)); [by left|right].
  apply handled_install_world.
Qed.

(** The install phase leaves the inputs of the resolver as they were. *)
Lemma install_inputs p w :
  charm_config (_install_if_needed catalog p w).2 = charm_config w ∧
  relations (_install_if_needed catalog p w).2 = relations w.
Proof.
  rewrite install_eq.
  repeat first
    [ rewrite handled_install_world
    | progress simpl
    | match goal with |- context [match ?x with _ => _ end] => destruct x end ];
    try done.
  all: unfold after_install; by destruct (cmd_list w).
Qed.

(** The configure phase acts only on an INSTALLED plugin that is asked for. *)
Lemma configure_acted p w :
  acted w (_configure_if_needed catalog p w).2 = true →
  (status p w).1 = Ok INSTALLED ∧ wanted p w = Ok true.
Proof.
  rewrite configure_eq.
  destruct (wanted p w) as [[|]|e];
    [|by rewrite acted_same|by rewrite handled_KeyError_world, acted_same].
  destruct (status p w).1 as [st|e];
    [|by rewrite handled_KeyError_world, acted_same].
  case_bool_decide as Hst; [by rewrite acted_same|]. by subst st.
Qed.

Lemma configure_inputs p w :
  charm_config (_configure_if_needed catalog p w).2 = charm_config w ∧
  relations (_configure_if_needed catalog p w).2 = relations w.
Proof.
  rewrite configure_eq.
  destruct (wanted p w) as [[|]|e]; [|done|by rewrite handled_KeyError_world].
  destruct (status p w).1 as [st|e]; [|by rewrite handled_KeyError_world].
  case_bool_decide; [done|].
  destruct (config p) as [cfg|e]; [|by rewrite handled_KeyError_world].
  destruct (apply_config_frame cfg w) as (? & ? & _). done.
Qed.

(** The disable phase acts only on an ENABLED or WAITING_FOR_UPGRADE plugin
    that is not asked for. *)
Lemma disable_acted p w :
  acted w (_disable_if_needed catalog p w).2 = true →
  ((status p w).1 = Ok ENABLED ∨ (status p w).1 = Ok WAITING_FOR_UPGRADE)
  ∧ wanted p w = Ok false.
Proof.
  rewrite disable_eq.
  destruct (wanted p w) as [[|]|e];
    [by rewrite acted_same| |by rewrite handled_KeyError_world, acted_same].
  destruct (status p w).1 as [st|e];
    [|by rewrite handled_KeyError_world, acted_same].
  case_bool_decide as Hst; [by rewrite acted_same|].
  intros _. split; [|done].
  apply elem_of_cons in Hst as [->|Hst]; [by left|].
  apply elem_of_cons in Hst as [->|Hst]; [by right|].
  by apply elem_of_nil in Hst.
Qed.

End OneCycle.

(** [phases_acted], on the outcomes of the three calls. *)
Lemma phases_acted_eq catalog p w :
  phases_acted catalog p w =
    let r1 := _install_if_needed catalog p w in
    let r2 := _configure_if_needed catalog p r1.2 in
    let r3 := _disable_if_needed catalog p r2.2 in
    (acted w r1.2,
     match r1.1 with Ok _ => acted r1.2 r2.2 | Raise _ => false end,
     match r1.1 with
     | Ok _ => match r2.1 with Ok _ => acted r2.2 r3.2 | Raise _ => false end
     | Raise _ => false
     end).
Proof.
  unfold phases_acted. cbv zeta.
  destruct (_install_if_needed catalog p w) as [[a|e] w1]; simpl; [|done].
  by destruct (_configure_if_needed catalog p w1) as [[b|e] w2].
Qed.

(** A name of one line is in the listing once it was added to it. *)
Lemma add_line_lists out line :
  Py.has_char Py.LF line = false →
  line ∈ Py.split Py.LF (Collab.add_line out line).
Proof.
  intros Hline. unfold Collab.add_line.
  destruct (String.eqb out EmptyString).
  - rewrite (PyFacts.split_one _ _ Hline). by left.
  - rewrite PyFacts.split_app, (PyFacts.split_one _ _ Hline).
    apply elem_of_app. right. by left.
Qed.

Lemma acted_grown w w' : length (log w) < length (log w') → acted w w' = true.
Proof. unfold acted. intros H. apply negb_true_iff, Nat.eqb_neq. lia. Qed.

(** The turn of a MISSING plugin that is asked for, with its dependencies
    in place and an install command that succeeds: the install phase acts,
    the configure phase acts exactly if the plugin's entries are not in the
    store yet, and the disable phase does not act. *)
Lemma install_success_turn catalog p w l out cfg b :
  (_installed_plugins w).1 = Ok l →
  (status p w).1 = Ok MISSING →
  (_user_requested_to_enable catalog p w).1 = Ok true →
  (∀ dep, dep ∈ dependencies p → dep ∈ l) →
  cmd_install w (name p) = CmdOk out →
  Py.has_char Py.LF (name p) = false →
  config p = Ok cfg →
  (_is_enabled p w).1 = Ok b →
  phases_acted catalog p w = (true, negb b, false).
Proof.
  intros Hl Hst Hwanted Hdeps%missing_deps_empty Hcmd Hname Hcfg Hen.
  rewrite installed_plugins_eq in Hl. simpl in Hl.
  assert (_install_if_needed catalog p w = (Ok true, after_install (name p) w)) as Hinst.
  { rewrite install_eq, Hl, Hst, Hwanted, Hdeps, Hcmd.
    rewrite bool_decide_eq_false_2 by naive_solver.
    by rewrite bool_decide_eq_false_2 by naive_solver. }
  set (w1 := after_install (name p) w) in *.
  destruct (install_inputs catalog p w) as [Hc1 Hr1].
  rewrite Hinst in Hc1, Hr1. simpl in Hc1, Hr1.
  assert (config_store w1 = config_store w) as Hstore
    by (subst w1; unfold after_install; by destruct (cmd_list w)).
  assert ((_user_requested_to_enable catalog p w1).1 = Ok true) as Hwanted1.
  { rewrite <- Hwanted. by apply user_requested_inputs. }
  assert ((_is_enabled p w1).1 = Ok b) as Hen1.
  { rewrite <- Hen. rewrite !(is_enabled_ok _ p cfg Hcfg). simpl.
    unfold applied_entries. by rewrite Hstore. }
  assert (∃ l1, listing w1 = Ok l1 ∧ name p ∈ l1) as (l1 & Hl1 & Hin1).
  { unfold listing in Hl. subst w1. unfold after_install, listing.
    destruct (cmd_list w) as [out0|]; [|done]. simpl.
    eexists. split; [done|]. by apply add_line_lists. }
  assert ((status p w1).1 =
          Ok (if b then if versions_differ (opensearch_version w1) (version p)
                        then WAITING_FOR_UPGRADE else ENABLED
              else INSTALLED)) as Hst1.
  { rewrite status_eq, Hl1, Hen1. simpl. rewrite bool_decide_eq_true_2 by done.
    by destruct b. }
  assert (acted w w1 = true) as Hi.
  { apply acted_grown. subst w1. unfold after_install.
    destruct (cmd_list w); simpl; rewrite length_app; simpl; lia. }
  rewrite phases_acted_eq. cbv zeta. rewrite Hinst. simpl. rewrite Hi.
  assert (∀ w2, charm_config w2 = charm_config w1 → relations w2 = relations w1 →
                _disable_if_needed catalog p w2 = (Ok false, w2)) as Hdis.
  { intros w2 Hc Hr. rewrite disable_eq.
    by rewrite (user_requested_inputs catalog p w1 w2 Hc Hr), Hwanted1. }
  rewrite configure_eq, Hwanted1, Hst1.
  destruct b; simpl.
  - assert (bool_decide ((if versions_differ (opensearch_version w1) (version p)
                          then WAITING_FOR_UPGRADE else ENABLED) ≠ INSTALLED) = true) as ->
      by (apply bool_decide_eq_true_2; by destruct (versions_differ _ _)).
    simpl. rewrite (Hdis w1) by done. simpl. by rewrite !acted_same.
  - rewrite Hcfg.
    destruct (apply_config_frame cfg w1) as (Hc & Hr & _).
    rewrite (acted_grown _ _ (apply_config_logs cfg w1)).
    rewrite apply_config_ok. rewrite (Hdis _ Hc Hr). simpl. by rewrite acted_same.
Qed.

(** C2, as the code has it. In the turn of one plugin each phase acts only
    on its own combination of state and desire, read when that phase runs:
    install on MISSING and wanted, configure on INSTALLED and wanted, disable
    on ENABLED or WAITING_FOR_UPGRADE and not wanted. The disable phase never
    acts where install or configure acted. Install and configure are not
    exclusive, for the status is read again after the install: a plugin that
    is MISSING and asked for, with its dependencies listed and an install
    command that succeeds, is installed and then configured in the same turn
    when its enabling entries are not in the configuration store yet, and
    installed only when they are there already. *)
Theorem C2_disable_excludes_the_other_phases (catalog : Catalog)
    (p : OpenSearchPlugin) (w : World) :
  let w1 := (_install_if_needed catalog p w).2 in
  let w2 := (_configure_if_needed catalog p w1).2 in
  let '(i, c, d) := phases_acted catalog p w in
  (i = true → (status p w).1 = Ok MISSING
              ∧ (_user_requested_to_enable catalog p w).1 = Ok true) ∧
  (c = true → (status p w1).1 = Ok INSTALLED
              ∧ (_user_requested_to_enable catalog p w1).1 = Ok true) ∧
  (d = true → ((status p w2).1 = Ok ENABLED
               ∨ (status p w2).1 = Ok WAITING_FOR_UPGRADE)
              ∧ (_user_requested_to_enable catalog p w2).1 = Ok false) ∧
  (d = true → i = false ∧ c = false) ∧
  (∀ l out cfg,
     (_installed_plugins w).1 = Ok l →
     (status p w).1 = Ok MISSING →
     (_user_requested_to_enable catalog p w).1 = Ok true →
     (∀ dep, dep ∈ dependencies p → dep ∈ l) →
     cmd_install w (name p) = CmdOk out →
     Py.has_char Py.LF (name p) = false →
     config p = Ok cfg →
     ((_is_enabled p w).1 = Ok false → i = true ∧ c = true ∧ d = false) ∧
     ((_is_enabled p w).1 = Ok true → i = true ∧ c = false ∧ d = false)).
Proof.
  intros w1 w2.
  pose proof (install_success_turn catalog p w) as Hturn.
  destruct (phases_acted catalog p w) as [[i c] d] eqn:Hacted.
  rewrite phases_acted_eq in Hacted. cbv beta iota zeta in Hacted.
  fold w1 in Hacted. fold w2 in Hacted.
  injection Hacted as Ei Ec Ed.
  assert ((_user_requested_to_enable catalog p w1).1
          = (_user_requested_to_enable catalog p w).1) as Hw1.
  { destruct (install_inputs catalog p w). by apply user_requested_inputs. }
  assert ((_user_requested_to_enable catalog p w2).1
          = (_user_requested_to_enable catalog p w).1) as Hw2.
  { rewrite <- Hw1. destruct (configure_inputs catalog p w1).
    by apply user_requested_inputs. }
  pose proof (install_acted catalog p w) as Hi. fold w1 in Hi.
  pose proof (configure_acted catalog p w1) as Hc. fold w2 in Hc.
  pose proof (disable_acted catalog p w2) as Hd.
  assert (∀ (r : Result bool) (x : bool),
            match r with Ok _ => x | Raise _ => false end = true → x = true) as Hon.
  { by intros [?|?] x. }
  split_and!.
  - intros ->. by destruct (Hi Ei) as (? & ? & _).
  - intros ->. by apply Hc, (Hon _ _ Ec).
  - intros ->. by apply Hd, (Hon _ _ (Hon _ _ Ed)).
  - intros ->. destruct (Hd (Hon _ _ (Hon _ _ Ed))) as [_ Hno].
    rewrite Hw2 in Hno. split.
    + destruct i; [|done]. destruct (Hi Ei) as (_ & Hyes & _). congruence.
    + destruct c; [|done]. destruct (Hc (Hon _ _ Ec)) as [_ Hyes]. congruence.
  - intros l out cfg Hl Hst Hwanted Hdeps Hcmd Hname Hcfg. split; intros Hen.
    + by injection (Hturn l out cfg false Hl Hst Hwanted Hdeps Hcmd Hname Hcfg Hen)
        as -> -> ->.
    + by injection (Hturn l out cfg true Hl Hst Hwanted Hdeps Hcmd Hname Hcfg Hen)
        as -> -> ->.
Qed.

Lemma C2_witness :
  let p := Sample.knn "2.9.0" in
  let w := Sample.node true GREEN (CmdOk "") (CmdOk "") ∅ Sample.knn_on in
  phases_acted Sample.catalog p w = (true, true, false).
Proof.
  intros p w.
  pose proof (C2_disable_excludes_the_other_phases Sample.catalog p w) as H.
  cbv zeta in H.
  destruct (phases_acted Sample.catalog p w) as [[i c] d].
  destruct H as (_ & _ & _ & _ & Hturn).
  destruct (Hturn [EmptyString] EmptyString
              {| config_entries_to_add := {[ "knn.plugin.enabled" := "true" ]};
                 config_entries_to_del := [];
                 secret_entries_to_add := ∅;
                 secret_entries_to_del := [] |}) as [Hboth _].
  - reflexivity.
  - vm_compute. reflexivity.
  - vm_compute. reflexivity.
  - intros dep Hdep. apply elem_of_nil in Hdep. destruct Hdep.
  - reflexivity.
  - reflexivity.
  - reflexivity.
  - destruct Hboth as (-> & -> & ->); [vm_compute; reflexivity|reflexivity].
Defined.

(** C2, as the specification has it, fails: a plugin that is MISSING and
    asked for is installed, and configured in the same turn. *)
Lemma C2_counterexample :
  ¬ (∀ (catalog : Catalog) (p : OpenSearchPlugin) (w : World),
       let '(i, c, d) := phases_acted catalog p w in at_most_one i c d = true).
Proof.
  intros Hclaim.
  specialize (Hclaim Sample.catalog (Sample.knn "2.9.0")
                (Sample.node true GREEN (CmdOk "") (CmdOk "") ∅ Sample.knn_on)).
  vm_compute in Hclaim. discriminate.
Qed.

(** ** Further properties of the manager *)

(** *** Versions and listings *)

(** The version test does not care which side is the service. *)
Lemma versions_differ_sym v pv : versions_differ v pv = versions_differ pv v.
Proof.
  rewrite !versions_differ_prefix. cbv zeta. rewrite Nat.min_comm.
  apply bool_decide_ext. split; intros H Heq; by apply H.
Qed.

(** A version that continues another with more components does not differ
    from it. *)
Lemma versions_differ_extension v rest :
  versions_differ v (v ++ "." ++ rest) = false.
Proof.
  rewrite versions_differ_prefix. cbv zeta.
  change (v ++ "." ++ rest)%string with (v ++ String Py.DOT rest)%string.
  rewrite PyFacts.split_app, length_app, Nat.min_r by lia.
  rewrite take_app_length.
  rewrite firstn_all. by rewrite bool_decide_eq_false_2 by naive_solver.
Qed.

(** X1. [_needs_upgrade] asks for no upgrade when the plugin's version is
    the service's version, or continues it with further components, or is
    continued by it; and the answer is the same with the two versions
    exchanged. *)
Theorem X1_no_upgrade_between_a_version_and_its_extension
    (w : World) (p : OpenSearchPlugin) :
  (version p = opensearch_version w → (_needs_upgrade p w).1 = Ok false) ∧
  (∀ rest, version p = (opensearch_version w ++ "." ++ rest)%string →
           (_needs_upgrade p w).1 = Ok false) ∧
  (∀ rest, opensearch_version w = (version p ++ "." ++ rest)%string →
           (_needs_upgrade p w).1 = Ok false) ∧
  (∀ w' p', opensearch_version w' = version p → version p' = opensearch_version w →
            (_needs_upgrade p' w').1 = (_needs_upgrade p w).1).
Proof.
  unfold _needs_upgrade, gets. simpl. split_and!.
  - intros ->. f_equal.
    rewrite versions_differ_prefix. cbv zeta.
    by rewrite bool_decide_eq_false_2 by naive_solver.
  - intros rest ->. f_equal. apply versions_differ_extension.
  - intros rest ->. f_equal. rewrite versions_differ_sym.
    apply versions_differ_extension.
  - intros w' p' -> ->. f_equal. apply versions_differ_sym.
Qed.

Lemma X1_witness :
  (_needs_upgrade (Sample.knn "2.9.0.1.7")
     (Sample.node true GREEN (CmdOk "") (CmdOk "") ∅ ∅)).1 = Ok false.
Proof.
  destruct (X1_no_upgrade_between_a_version_and_its_extension
              (Sample.node true GREEN (CmdOk "") (CmdOk "") ∅ ∅)
              (Sample.knn "2.9.0.1.7")) as (_ & Hext & _).
  apply (Hext "1.7"). reflexivity.
Defined.

(** X2. When the list command answers, [_installed_plugins] returns its
    lines as they are and leaves the world alone: the list is never empty,
    joined with line feeds it is the output again, and no name in it holds a
    line feed. An empty output gives the one name that is the empty string,
    so a plugin is listed exactly when its name is a whole line. *)
Theorem X2_listing_is_the_lines_of_the_output (w : World) (out : string) :
  cmd_list w = CmdOk out →
  ∃ l, _installed_plugins w = (Ok l, w) ∧
       l ≠ [] ∧
       Py.join (String Py.LF EmptyString) l = out ∧
       Forall (λ x, Py.has_char Py.LF x = false) l ∧
       (out = EmptyString → l = [EmptyString]) ∧
       (∀ p, (_is_installed p w).1 = Ok (bool_decide (name p ∈ l))).
Proof.
  intros Hout. exists (Py.split Py.LF out).
  rewrite installed_plugins_eq. unfold listing. rewrite Hout.
  split_and!.
  - done.
  - apply PyFacts.split_nonempty.
  - apply PyFacts.join_split.
  - apply PyFacts.split_no_sep.
  - by intros ->.
  - intros p. rewrite is_installed_eq. unfold listing. by rewrite Hout.
Qed.

Lemma X2_witness :
  let w := Sample.node true GREEN
             (CmdOk ("opensearch-knn" ++ String Py.LF EmptyString))
             (CmdOk "") ∅ ∅ in
  ∃ l, _installed_plugins w = (Ok l, w) ∧
       l ≠ [] ∧
       Py.join (String Py.LF EmptyString) l
         = ("opensearch-knn" ++ String Py.LF EmptyString)%string ∧
       Forall (λ x, Py.has_char Py.LF x = false) l ∧
       (("opensearch-knn" ++ String Py.LF EmptyString)%string = EmptyString
        → l = [EmptyString]) ∧
       (∀ p, (_is_installed p w).1 = Ok (bool_decide (name p ∈ l))).
Proof.
  intros w.
  apply (X2_listing_is_the_lines_of_the_output w
           ("opensearch-knn" ++ String Py.LF EmptyString)).
  reflexivity.
Defined.

(** *** The configuration applier, entry by entry *)

Lemma foldr_delete_lookup (m : gmap string string) (keys : list string) (k : string) :
  foldr delete m keys !! k = if bool_decide (k ∈ keys) then None else m !! k.
Proof.
  induction keys as [|a keys IH]; cbn [foldr].
  - by rewrite bool_decide_eq_false_2 by apply not_elem_of_nil.
  - rewrite lookup_delete. destruct (decide (a = k)) as [->|Hne].
    + by rewrite bool_decide_eq_true_2 by left.
    + rewrite IH. case_bool_decide as H1; case_bool_decide as H2; try done.
      * exfalso. apply H2. by right.
      * apply elem_of_cons in H2 as [->|H2]; done.
Qed.

Lemma union_lookup_cases (add m : gmap string string) (k : string) :
  (add ∪ m) !! k = match add !! k with Some v => Some v | None => m !! k end.
Proof.
  destruct (add !! k) as [v|] eqn:Hk.
  - by apply lookup_union_Some_l.
  - by apply lookup_union_r.
Qed.

(** The configuration store after [_apply_config], key by key. *)
Lemma apply_config_store_lookup cfg w k :
  config_store (_apply_config cfg w).2 !! k =
    match config_entries_to_add cfg !! k with
    | Some v => Some v
    | None => if bool_decide (k ∈ config_entries_to_del cfg) then None
              else config_store w !! k
    end.
Proof.
  rewrite apply_config_store.
  case_bool_decide as Hadd; case_bool_decide as Hdel; simpl.
  - by rewrite union_lookup_cases, foldr_delete_lookup.
  - rewrite union_lookup_cases. rewrite Hdel.
    by rewrite bool_decide_eq_false_2 by apply not_elem_of_nil.
  - rewrite Hadd, lookup_empty. by rewrite foldr_delete_lookup.
  - rewrite Hadd, Hdel, lookup_empty.
    by rewrite bool_decide_eq_false_2 by apply not_elem_of_nil.
Qed.

(** The keystore after [_apply_config]. *)
Lemma apply_config_keystore cfg w :
  keystore (_apply_config cfg w).2 =
    secret_entries_to_add cfg ∪ foldr delete (keystore w) (secret_entries_to_del cfg).
Proof.
  unfold _apply_config, bind, Collab.keystore_delete, Collab.keystore_add,
    Collab.delete_plugin, Collab.add_plugin, modify. simpl.
  destruct (bool_decide (config_entries_to_del cfg ≠ [])),
           (bool_decide (config_entries_to_add cfg ≠ ∅)); done.
Qed.

Lemma apply_config_keystore_lookup cfg w k :
  keystore (_apply_config cfg w).2 !! k =
    match secret_entries_to_add cfg !! k with
    | Some v => Some v
    | None => if bool_decide (k ∈ secret_entries_to_del cfg) then None
              else keystore w !! k
    end.
Proof. by rewrite apply_config_keystore, union_lookup_cases, foldr_delete_lookup. Qed.

(** [_apply_config] touches the two stores and the log, nothing else. *)
Lemma apply_config_same_node cfg w :
  same_node w (_apply_config cfg w).2 ∧ cmd_list (_apply_config cfg w).2 = cmd_list w.
Proof.
  unfold same_node, _apply_config, bind, Collab.keystore_delete, Collab.keystore_add,
    Collab.delete_plugin, Collab.add_plugin, modify. simpl.
  destruct (bool_decide (config_entries_to_del cfg ≠ [])),
           (bool_decide (config_entries_to_add cfg ≠ ∅)); simpl;
    split_and!; try done; rewrite <- ?(assoc_L (++)); eauto.
Qed.

(** X3. After [_apply_config] each store holds, under every key: the value
    to add if the delta adds one, nothing if the delta only deletes the key,
    and what it held before otherwise. Deletions are made first, so an entry
    that is both deleted and added ends up added; every entry to add is in
    its store afterwards. *)
Theorem X3_apply_config_adds_after_deleting (cfg : OpenSearchPluginConfig) (w : World) :
  let w' := (_apply_config cfg w).2 in
  (∀ k, config_store w' !! k =
          match config_entries_to_add cfg !! k with
          | Some v => Some v
          | None => if bool_decide (k ∈ config_entries_to_del cfg) then None
                    else config_store w !! k
          end) ∧
  (∀ k, keystore w' !! k =
          match secret_entries_to_add cfg !! k with
          | Some v => Some v
          | None => if bool_decide (k ∈ secret_entries_to_del cfg) then None
                    else keystore w !! k
          end) ∧
  config_entries_to_add cfg ⊆ config_store w' ∧
  secret_entries_to_add cfg ⊆ keystore w'.
Proof.
  intros w'. subst w'. split_and!.
  - apply apply_config_store_lookup.
  - apply apply_config_keystore_lookup.
  - apply map_subseteq_spec. intros k v Hk.
    by rewrite apply_config_store_lookup, Hk.
  - apply map_subseteq_spec. intros k v Hk.
    by rewrite apply_config_keystore_lookup, Hk.
Qed.

(** X4. Applying a delta a second time leaves the configuration store and
    the keystore as the first application left them. *)
Theorem X4_apply_config_twice_is_once (cfg : OpenSearchPluginConfig) (w : World) :
  let w1 := (_apply_config cfg w).2 in
  let w2 := (_apply_config cfg w1).2 in
  config_store w2 = config_store w1 ∧ keystore w2 = keystore w1.
Proof.
  intros w1 w2. subst w1 w2. split; apply map_eq; intros k.
  - rewrite apply_config_store_lookup.
    destruct (config_entries_to_add cfg !! k) as [v|] eqn:Hadd.
    + by rewrite apply_config_store_lookup, Hadd.
    + case_bool_decide as Hdel; [|done].
      by rewrite apply_config_store_lookup, Hadd, bool_decide_eq_true_2.
  - rewrite apply_config_keystore_lookup.
    destruct (secret_entries_to_add cfg !! k) as [v|] eqn:Hadd.
    + by rewrite apply_config_keystore_lookup, Hadd.
    + case_bool_decide as Hdel; [|done].
      by rewrite apply_config_keystore_lookup, Hadd, bool_decide_eq_true_2.
Qed.

(** *** What each phase leaves alone *)

Lemma same_node_refl w : same_node w w.
Proof. unfold same_node. split_and!; try done. exists []. by rewrite app_nil_r. Qed.

Lemma same_node_trans w1 w2 w3 : same_node w1 w2 → same_node w2 w3 → same_node w1 w3.
Proof.
  unfold same_node.
  intros (? & ? & ? & ? & ? & ? & ? & ? & es1 & Hes1)
         (? & ? & ? & ? & ? & ? & ? & ? & es2 & Hes2).
  split_and!; try congruence.
  exists (es1 ++ es2)%list. rewrite Hes2, Hes1. by rewrite <- (assoc_L (++)).
Qed.

Lemma record_same_node e w : same_node w (record e w).
Proof. unfold same_node. split_and!; try done. by exists [e]. Qed.

Lemma after_install_same_node plugin w : same_node w (after_install plugin w).
Proof.
  unfold after_install, same_node.
  destruct (cmd_list w); split_and!; try done; by exists [EvInstall plugin].
Qed.

Section PhaseFrames.
Variable catalog : Catalog.

(** The install phase writes to neither store. *)
Lemma install_frame p w :
  same_node w (_install_if_needed catalog p w).2 ∧
  config_store (_install_if_needed catalog p w).2 = config_store w ∧
  keystore (_install_if_needed catalog p w).2 = keystore w.
Proof.
  rewrite install_eq.
  destruct (listing w) as [l|e]; [|by auto using same_node_refl].
  destruct (status p w).1 as [st|e];
    [|by rewrite handled_install_world; auto using same_node_refl].
  case_bool_decide; [by auto using same_node_refl|].
  destruct (_user_requested_to_enable catalog p w).1 as [[|]|e];
    [|by auto using same_node_refl
     |by rewrite handled_install_world; auto using same_node_refl].
  case_bool_decide; [by auto using same_node_refl|].
  destruct (cmd_install w (name p)).
  - split; [apply after_install_same_node|].
    unfold after_install. by destruct (cmd_list w).
  - rewrite handled_install_world. split; [apply record_same_node|done].
Qed.

(** The configure phase does not touch the listing. *)
Lemma configure_frame p w :
  same_node w (_configure_if_needed catalog p w).2 ∧
  cmd_list (_configure_if_needed catalog p w).2 = cmd_list w.
Proof.
  rewrite configure_eq.
  destruct (_user_requested_to_enable catalog p w).1 as [[|]|e];
    [|by auto using same_node_refl
     |by rewrite handled_KeyError_world; auto using same_node_refl].
  destruct (status p w).1 as [st|e];
    [|by rewrite handled_KeyError_world; auto using same_node_refl].
  case_bool_decide; [by auto using same_node_refl|].
  destruct (config p) as [cfg|e];
    [|by rewrite handled_KeyError_world; auto using same_node_refl].
  apply apply_config_same_node.
Qed.

(** Nor does the disable phase. *)
Lemma disable_frame p w :
  same_node w (_disable_if_needed catalog p w).2 ∧
  cmd_list (_disable_if_needed catalog p w).2 = cmd_list w.
Proof.
  rewrite disable_eq.
  destruct (_user_requested_to_enable catalog p w).1 as [[|]|e];
    [by auto using same_node_refl|
     |by rewrite handled_KeyError_world; auto using same_node_refl].
  destruct (status p w).1 as [st|e];
    [|by rewrite handled_KeyError_world; auto using same_node_refl].
  case_bool_decide; [by auto using same_node_refl|].
  destruct (disable p) as [cfg|e];
    [|by rewrite handled_KeyError_world; auto using same_node_refl].
  apply apply_config_same_node.
Qed.

Lemma run_plugin_same_node p r w : same_node w (run_plugin catalog p r w).2.
Proof.
  rewrite run_plugin_phases.
  pose proof (install_frame p w) as [H1 _].
  destruct (_install_if_needed catalog p w) as [[a|e] w1]; simpl in *; [|done].
  pose proof (configure_frame p w1) as [H2 _].
  destruct (_configure_if_needed catalog p w1) as [[b|e] w2]; simpl in *;
    [|by eapply same_node_trans].
  pose proof (disable_frame p w2) as [H3 _].
  destruct (_disable_if_needed catalog p w2) as [[c|e] w3]; simpl in *;
    eauto using same_node_trans.
Qed.

Lemma run_loop_same_node ps r w : same_node w (run_loop catalog ps r w).2.
Proof.
  revert r w. induction ps as [|p ps IH]; intros r w; simpl.
  - apply same_node_refl.
  - unfold bind. pose proof (run_plugin_same_node p r w) as H1.
    destruct (run_plugin catalog p r w) as [[r'|e] w1]; simpl in *; [|done].
    eapply same_node_trans; [done|apply IH].
Qed.

End PhaseFrames.

(** X5. The install phase never writes to the configuration store or the
    keystore; the configure and the disable phase never change the listing of
    installed plugins; and none of the three changes the service state, the
    health probe, the versions, the charm configuration or the relations, or
    takes anything back from the log of calls. *)
Theorem X5_each_phase_keeps_to_its_own (catalog : Catalog) (p : OpenSearchPlugin)
    (w : World) :
  (config_store (_install_if_needed catalog p w).2 = config_store w
   ∧ keystore (_install_if_needed catalog p w).2 = keystore w) ∧
  cmd_list (_configure_if_needed catalog p w).2 = cmd_list w ∧
  cmd_list (_disable_if_needed catalog p w).2 = cmd_list w ∧
  same_node w (_install_if_needed catalog p w).2 ∧
  same_node w (_configure_if_needed catalog p w).2 ∧
  same_node w (_disable_if_needed catalog p w).2.
Proof.
  destruct (install_frame catalog p w) as (? & ? & ?).
  destruct (configure_frame catalog p w) as (? & ?).
  destruct (disable_frame catalog p w) as (? & ?).
  done.
Qed.

(** X6. Once the configure phase has acted, the plugin's entries are in the
    configuration store: the enabled-check answers yes, the status is ENABLED
    or WAITING_FOR_UPGRADE, and the configure phase called again returns
    false and changes nothing. *)
Theorem X6_configure_settles (catalog : Catalog) (p : OpenSearchPlugin) (w : World) :
  acted w (_configure_if_needed catalog p w).2 = true →
  let w' := (_configure_if_needed catalog p w).2 in
  (_is_enabled p w').1 = Ok true ∧
  ((status p w').1 = Ok ENABLED ∨ (status p w').1 = Ok WAITING_FOR_UPGRADE) ∧
  _configure_if_needed catalog p w' = (Ok false, w').
Proof.
  intros Hacted w'.
  destruct (configure_acted catalog p w Hacted) as [Hst Hwanted].
  destruct (configure_frame catalog p w) as [Hnode Hlist]. fold w' in Hnode, Hlist.
  assert (∃ cfg, config p = Ok cfg ∧ w' = (_apply_config cfg w).2) as (cfg & Hcfg & Hw').
  { subst w'. revert Hacted. rewrite configure_eq, Hwanted, Hst.
    rewrite bool_decide_eq_false_2 by naive_solver.
    destruct (config p) as [cfg|e]; [by eauto|].
    by rewrite handled_KeyError_world, acted_same. }
  assert ((_is_enabled p w').1 = Ok true) as Hen.
  { rewrite (is_enabled_ok w' p cfg Hcfg). simpl. f_equal.
    apply bool_decide_eq_true_2, applied_entries_match.
    apply map_subseteq_spec. intros k v Hk.
    by rewrite Hw', apply_config_store_lookup, Hk. }
  assert ((status p w').1 = Ok ENABLED ∨ (status p w').1 = Ok WAITING_FOR_UPGRADE) as Hst'.
  { assert (∃ l, listing w = Ok l ∧ name p ∈ l) as (l & Hl & Hin).
    { rewrite status_eq in Hst. simpl in Hst.
      destruct (listing w) as [l|e]; [|done].
      exists l. split; [done|]. by case_bool_decide. }
    assert (listing w' = Ok l) as Hl' by (unfold listing in *; by rewrite Hlist).
    rewrite status_eq, Hen, Hl'. simpl.
    rewrite bool_decide_eq_true_2 by done.
    destruct (versions_differ _ _); auto. }
  split_and!; [done..|].
  rewrite configure_eq.
  destruct Hnode as (_ & _ & _ & _ & _ & _ & Hc & Hr & _).
  rewrite (user_requested_inputs catalog p w w' Hc Hr), Hwanted.
  destruct Hst' as [-> | ->]; by rewrite bool_decide_eq_true_2.
Qed.

Lemma X6_witness :
  let p := Sample.knn "2.9.0" in
  let w := Sample.node true GREEN (CmdOk "opensearch-knn") (CmdOk "") ∅ Sample.knn_on in
  (status p (_configure_if_needed Sample.catalog p w).2).1 = Ok ENABLED
  ∨ (status p (_configure_if_needed Sample.catalog p w).2).1 = Ok WAITING_FOR_UPGRADE.
Proof.
  intros p w.
  apply (X6_configure_settles Sample.catalog p w).
  vm_compute. reflexivity.
Defined.

(** *** Errors of the phases *)

Section PhaseErrors.
Variable catalog : Catalog.

(** A status that was computed means the listing was read. *)
Lemma status_ok_listing p w st :
  (status p w).1 = Ok st → ∃ l, listing w = Ok l.
Proof. rewrite status_eq. simpl. destruct (listing w) as [l|e]; [eauto|done]. Qed.

(** What comes out of the handlers is never a [KeyError]. *)
Lemma handled_install_not_KeyError p e w k :
  (handled (on_install_error p) e w).1 ≠ Raise (KeyError k).
Proof.
  unfold handled, on_install_error.
  destruct e; try done. by destruct (Py.contains _ _).
Qed.

Lemma handled_not_KeyError {A} e w k :
  (handled (@on_KeyError A) e w).1 ≠ Raise (KeyError k).
Proof. unfold handled, on_KeyError. by destruct e. Qed.

Lemma install_not_KeyError p w k :
  (_install_if_needed catalog p w).1 ≠ Raise (KeyError k).
Proof.
  rewrite install_eq. unfold listing.
  destruct (cmd_list w); [|done].
  destruct (status p w).1; [|apply handled_install_not_KeyError].
  case_bool_decide; [done|].
  destruct (_user_requested_to_enable catalog p w).1 as [[|]|e];
    [|done|apply handled_install_not_KeyError].
  case_bool_decide; [done|].
  destruct (cmd_install w (name p)); [done|apply handled_install_not_KeyError].
Qed.

Lemma configure_not_KeyError p w k :
  (_configure_if_needed catalog p w).1 ≠ Raise (KeyError k).
Proof.
  rewrite configure_eq.
  destruct (_user_requested_to_enable catalog p w).1 as [[|]|e];
    [|done|apply handled_not_KeyError].
  destruct (status p w).1; [|apply handled_not_KeyError].
  case_bool_decide; [done|].
  destruct (config p); [|apply handled_not_KeyError].
  by rewrite apply_config_ok.
Qed.

Lemma disable_not_KeyError p w k :
  (_disable_if_needed catalog p w).1 ≠ Raise (KeyError k).
Proof.
  rewrite disable_eq.
  destruct (_user_requested_to_enable catalog p w).1 as [[|]|e];
    [done| |apply handled_not_KeyError].
  destruct (status p w).1; [|apply handled_not_KeyError].
  case_bool_decide; [done|].
  destruct (disable p); [|apply handled_not_KeyError].
  by rewrite apply_config_ok.
Qed.

Lemma run_loop_not_KeyError ps r w k :
  (run_loop catalog ps r w).1 ≠ Raise (KeyError k).
Proof.
  revert r w. induction ps as [|p ps IH]; intros r w; simpl; [done|].
  unfold bind. rewrite run_plugin_phases.
  pose proof (install_not_KeyError p w k) as H1.
  destruct (_install_if_needed catalog p w) as [[a|e] w1]; simpl in *; [|done].
  pose proof (configure_not_KeyError p w1 k) as H2.
  destruct (_configure_if_needed catalog p w1) as [[b|e] w2]; simpl in *; [|done].
  pose proof (disable_not_KeyError p w2 k) as H3.
  destruct (_disable_if_needed catalog p w2) as [[c|e] w3]; simpl in *; [|done].
  apply IH.
Qed.

End PhaseErrors.

(** X7. For a plugin whose name the catalog does not hold, the configure
    and the disable phase raise the missing-configuration error with that
    name and change nothing; the install phase does so when the plugin is
    MISSING, and returns false when the status is any other. *)
Theorem X7_plugin_outside_the_catalog (catalog : Catalog) (p : OpenSearchPlugin)
    (w : World) :
  catalog_lookup catalog (name p) = None →
  let err := OpenSearchPluginMissingConfigError (name p) in
  _configure_if_needed catalog p w = (Raise err, w) ∧
  _disable_if_needed catalog p w = (Raise err, w) ∧
  ((status p w).1 = Ok MISSING → _install_if_needed catalog p w = (Raise err, w)) ∧
  (∀ st, (status p w).1 = Ok st → st ≠ MISSING →
         _install_if_needed catalog p w = (Ok false, w)).
Proof.
  intros Hnone err.
  assert ((_user_requested_to_enable catalog p w).1 = Raise (KeyError (name p))) as Hw
    by (by rewrite user_requested_eq, Hnone).
  split_and!.
  - by rewrite configure_eq, Hw.
  - by rewrite disable_eq, Hw.
  - intros Hst. destruct (status_ok_listing p w _ Hst) as [l Hl].
    rewrite install_eq, Hl, Hst, Hw.
    by rewrite bool_decide_eq_false_2 by naive_solver.
  - intros st Hst Hne. destruct (status_ok_listing p w _ Hst) as [l Hl].
    rewrite install_eq, Hl, Hst. by rewrite bool_decide_eq_true_2.
Qed.

Lemma X7_witness :
  let p := Sample.knn "2.9.0" in
  let w := Sample.node true GREEN (CmdOk "") (CmdOk "") ∅ Sample.knn_on in
  _configure_if_needed [] p w
  = (Raise (OpenSearchPluginMissingConfigError "opensearch-knn"), w).
Proof.
  intros p w.
  destruct (X7_plugin_outside_the_catalog [] p w eq_refl) as [Hconf _].
  exact Hconf.
Defined.

(** X8. No phase lets a [KeyError] out, nor does [status], nor does the
    loop of [run] over descriptors already built: a key that is missing from
    the catalog, or in the plugin's own [config()] or [disable()], comes out
    as a missing-configuration error or is taken as not enabled. (Building
    the descriptors, which [run] does outside every handler, is not covered.) *)
Theorem X8_no_KeyError_leaves_the_cycle (catalog : Catalog) (w : World) (k : string) :
  (∀ p, (_install_if_needed catalog p w).1 ≠ Raise (KeyError k)
        ∧ (_configure_if_needed catalog p w).1 ≠ Raise (KeyError k)
        ∧ (_disable_if_needed catalog p w).1 ≠ Raise (KeyError k)) ∧
  (∀ p, (status p w).1 ≠ Raise (KeyError k)) ∧
  (∀ ps r, (run_loop catalog ps r w).1 ≠ Raise (KeyError k)).
Proof.
  split_and!.
  - intros p. split_and!.
    + apply install_not_KeyError.
    + apply configure_not_KeyError.
    + apply disable_not_KeyError.
  - intros p. rewrite status_eq. simpl. unfold listing.
    destruct (cmd_list w); [|done].
    case_bool_decide; [|done].
    unfold _is_enabled, try_except, bind, lift.
    destruct (config p) as [cfg|e]; simpl; [by case_bool_decide|].
    destruct e; simpl; done.
  - intros ps r. apply run_loop_not_KeyError.
Qed.

(** *** The cycle as a whole *)

Section WholeCycle.
Variable catalog : Catalog.

(** The three phases pass over a settled plugin. *)
Lemma run_plugin_settled p r w :
  settled catalog p w → run_plugin catalog p r w = (Ok r, w).
Proof.
  intros [[Hw Hst]|[Hw Hst]].
  - assert (∃ st, (status p w).1 = Ok st ∧ st ≠ MISSING ∧ st ≠ INSTALLED)
      as (st & Hs & Hm & Hi) by (destruct Hst; eauto).
    destruct (status_ok_listing p w st Hs) as [l Hl].
    rewrite run_plugin_phases.
    rewrite install_eq, Hl, Hs, (bool_decide_eq_true_2 _ Hm).
    rewrite configure_eq, Hw, Hs, (bool_decide_eq_true_2 _ Hi).
    by rewrite disable_eq, Hw.
  - assert (∃ st, (status p w).1 = Ok st ∧ st ∉ [ENABLED; WAITING_FOR_UPGRADE])
      as (st & Hs & Hout).
    { destruct Hst as [Hs|Hs]; eexists; (split; [exact Hs|]);
        intros Hin; repeat (apply elem_of_cons in Hin as [?|Hin]; [done|]);
        by apply elem_of_nil in Hin. }
    destruct (status_ok_listing p w st Hs) as [l Hl].
    rewrite run_plugin_phases.
    rewrite install_eq, Hl, Hs, Hw.
    assert (_configure_if_needed catalog p w = (Ok false, w)) as Hc
      by (by rewrite configure_eq, Hw).
    assert (_disable_if_needed catalog p w = (Ok false, w)) as Hd
      by (by rewrite disable_eq, Hw, Hs, (bool_decide_eq_true_2 _ Hout)).
    case_bool_decide; by rewrite Hc, Hd.
Qed.

Lemma run_loop_settled ps r w :
  (∀ p, p ∈ ps → settled catalog p w) → run_loop catalog ps r w = (Ok r, w).
Proof.
  induction ps as [|p ps IH]; intros Hall; simpl; [done|].
  unfold bind. rewrite (run_plugin_settled p r w) by (apply Hall; by left).
  apply IH. intros q Hq. apply Hall. by right.
Qed.

(** A phase that returns false left its target as it was. *)
Lemma install_false p w :
  (_install_if_needed catalog p w).1 = Ok false →
  cmd_list (_install_if_needed catalog p w).2 = cmd_list w.
Proof.
  rewrite install_eq.
  destruct (listing w); [|done].
  destruct (status p w).1; [|by rewrite handled_install_world].
  case_bool_decide; [done|].
  destruct (_user_requested_to_enable catalog p w).1 as [[|]|e];
    [|done|by rewrite handled_install_world].
  case_bool_decide; [done|].
  destruct (cmd_install w (name p)); [done|].
  by rewrite handled_install_world.
Qed.

Lemma apply_config_false cfg w :
  (_apply_config cfg w).1 = Ok false →
  config_store (_apply_config cfg w).2 = config_store w.
Proof.
  rewrite apply_config_ok, apply_config_store.
  repeat case_bool_decide; simpl; naive_solver.
Qed.

Lemma configure_false p w :
  (_configure_if_needed catalog p w).1 = Ok false →
  config_store (_configure_if_needed catalog p w).2 = config_store w.
Proof.
  rewrite configure_eq.
  destruct (_user_requested_to_enable catalog p w).1 as [[|]|e];
    [|done|by rewrite handled_KeyError_world].
  destruct (status p w).1; [|by rewrite handled_KeyError_world].
  case_bool_decide; [done|].
  destruct (config p); [apply apply_config_false|by rewrite handled_KeyError_world].
Qed.

Lemma disable_false p w :
  (_disable_if_needed catalog p w).1 = Ok false →
  config_store (_disable_if_needed catalog p w).2 = config_store w.
Proof.
  rewrite disable_eq.
  destruct (_user_requested_to_enable catalog p w).1 as [[|]|e];
    [done| |by rewrite handled_KeyError_world].
  destruct (status p w).1; [|by rewrite handled_KeyError_world].
  case_bool_decide; [done|].
  destruct (disable p); [apply apply_config_false|by rewrite handled_KeyError_world].
Qed.

Lemma run_loop_false ps r w :
  (run_loop catalog ps r w).1 = Ok false →
  r = false ∧
  config_store (run_loop catalog ps r w).2 = config_store w ∧
  cmd_list (run_loop catalog ps r w).2 = cmd_list w.
Proof.
  revert r w. induction ps as [|p ps IH]; intros r w; simpl.
  - by intros [= ->].
  - unfold bind. rewrite run_plugin_phases.
    pose proof (install_false p w) as Hi.
    destruct (install_frame catalog p w) as (_ & Hi' & _).
    destruct (_install_if_needed catalog p w) as [[a|e] w1]; simpl in *; [|done].
    pose proof (configure_false p w1) as Hc.
    destruct (configure_frame catalog p w1) as (_ & Hc').
    destruct (_configure_if_needed catalog p w1) as [[b|e] w2]; simpl in *; [|done].
    pose proof (disable_false p w2) as Hd.
    destruct (disable_frame catalog p w2) as (_ & Hd').
    destruct (_disable_if_needed catalog p w2) as [[c|e] w3]; simpl in *; [|done].
    intros Hrun. destruct (IH _ _ Hrun) as (Hr & Hs & Hl).
    destruct a, b, c, r; simplify_eq/=.
    split; [done|]. rewrite Hs, Hl. split; [|by rewrite Hd', Hc', Hi].
    by rewrite Hd, Hc, Hi'.
Qed.

(** A phase that returns true made a call. *)
Lemma install_true p w :
  (_install_if_needed catalog p w).1 = Ok true →
  length (log w) < length (log (_install_if_needed catalog p w).2).
Proof.
  rewrite install_eq.
  destruct (listing w); [|done].
  destruct (status p w).1 as [st|e].
  2: { unfold handled, on_install_error. destruct e; try done.
       by destruct (Py.contains _ _). }
  case_bool_decide; [done|].
  destruct (_user_requested_to_enable catalog p w).1 as [[|]|e]; [|done|].
  2: { unfold handled, on_install_error. destruct e; try done.
       by destruct (Py.contains _ _). }
  case_bool_decide; [done|].
  destruct (cmd_install w (name p)).
  - intros _. unfold after_install.
    destruct (cmd_list w); simpl; rewrite length_app; simpl; lia.
  - unfold handled, on_install_error. by destruct (Py.contains _ _).
Qed.

Lemma configure_true p w :
  (_configure_if_needed catalog p w).1 = Ok true →
  length (log w) < length (log (_configure_if_needed catalog p w).2).
Proof.
  rewrite configure_eq.
  destruct (_user_requested_to_enable catalog p w).1 as [[|]|e];
    [|done|by unfold handled, on_KeyError; destruct e].
  destruct (status p w).1 as [st|e]; [|by unfold handled, on_KeyError; destruct e].
  case_bool_decide; [done|].
  destruct (config p) as [cfg|e]; [|by unfold handled, on_KeyError; destruct e].
  intros _. apply apply_config_logs.
Qed.

Lemma disable_true p w :
  (_disable_if_needed catalog p w).1 = Ok true →
  length (log w) < length (log (_disable_if_needed catalog p w).2).
Proof.
  rewrite disable_eq.
  destruct (_user_requested_to_enable catalog p w).1 as [[|]|e];
    [done| |by unfold handled, on_KeyError; destruct e].
  destruct (status p w).1 as [st|e]; [|by unfold handled, on_KeyError; destruct e].
  case_bool_decide; [done|].
  destruct (disable p) as [cfg|e]; [|by unfold handled, on_KeyError; destruct e].
  intros _. apply apply_config_logs.
Qed.

Lemma same_node_log_le w w' :
  same_node w w' → (length (log w) <= length (log w'))%nat.
Proof.
  intros (_ & _ & _ & _ & _ & _ & _ & _ & es & ->). rewrite length_app. lia.
Qed.

Lemma run_loop_true ps r w :
  (run_loop catalog ps r w).1 = Ok true →
  r = true ∨ length (log w) < length (log (run_loop catalog ps r w).2).
Proof.
  revert r w. induction ps as [|p ps IH]; intros r w; simpl.
  - intros [= ->]. by left.
  - unfold bind. rewrite run_plugin_phases.
    pose proof (install_true p w) as Hi.
    pose proof (same_node_log_le _ _ (proj1 (install_frame catalog p w))) as Hi'.
    destruct (_install_if_needed catalog p w) as [[a|e] w1]; simpl in *; [|done].
    pose proof (configure_true p w1) as Hc.
    pose proof (same_node_log_le _ _ (proj1 (configure_frame catalog p w1))) as Hc'.
    destruct (_configure_if_needed catalog p w1) as [[b|e] w2]; simpl in *; [|done].
    pose proof (disable_true p w2) as Hd.
    pose proof (same_node_log_le _ _ (proj1 (disable_frame catalog p w2))) as Hd'.
    destruct (_disable_if_needed catalog p w2) as [[c|e] w3]; simpl in *; [|done].
    intros Hrun.
    pose proof (same_node_log_le _ _ (run_loop_same_node catalog ps (a || b || c || r) w3))
      as Hrest.
    destruct (IH _ _ Hrun) as [Hr|Hlt]; [|right; lia].
    destruct a; [right; specialize (Hi eq_refl); lia|].
    destruct b; [right; specialize (Hc eq_refl); lia|].
    destruct c; [right; specialize (Hd eq_refl); lia|].
    by left.
Qed.

(** [run] after its test: the world the test left and the plugins built there. *)
Lemma run_cases w :
  (∃ e wg, readiness_gate w = (Raise e, wg) ∧ run catalog w = (Raise e, wg)) ∨
  (∃ wg ps, readiness_gate w = (Ok tt, wg) ∧ plugins catalog wg = (Ok ps, wg)
            ∧ run catalog w = run_loop catalog ps false wg).
Proof.
  destruct (readiness_gate w) as [[[]|e] wg] eqn:Hgate.
  - right. destruct (plugins_of_ok catalog wg) as (ps & Hps & _).
    exists wg, ps. split; [done|]. split; [done|].
    unfold run, bind, plugins. by rewrite Hgate, Hps.
  - left. exists e, wg. split; [done|]. unfold run, bind. by rewrite Hgate.
Qed.

End WholeCycle.

(** X9. On a started service, when every plugin of the catalog is settled
    (asked for and ENABLED or WAITING_FOR_UPGRADE, or not asked for and
    MISSING or INSTALLED), [run] returns false and leaves the world exactly
    as it was: the listing is read, but nothing is installed, neither store is
    written, no mutating call is logged and the health is not probed. *)
Theorem X9_settled_cycle_does_nothing (catalog : Catalog) (w : World)
    (ps : list OpenSearchPlugin) :
  started w = true →
  (plugins catalog w).1 = Ok ps →
  (∀ p, p ∈ ps → settled catalog p w) →
  run catalog w = (Ok false, w).
Proof.
  intros Hup Hps Hall.
  unfold run, bind. rewrite readiness_gate_eq, Hup.
  rewrite (read_only_run (plugins catalog) w (plugins_of_ro catalog)), Hps.
  by apply run_loop_settled.
Qed.

Lemma X9_witness :
  let w := Sample.node true RED (CmdOk "opensearch-knn") (CmdOk "")
             {[ "knn.plugin.enabled" := "true" ]} Sample.knn_on in
  run Sample.catalog w = (Ok false, w).
Proof.
  intros w.
  apply (X9_settled_cycle_does_nothing Sample.catalog w
           [Sample.knn "2.9.0.0"; Sample.s3 "2.9.0.0"]).
  - reflexivity.
  - vm_compute. reflexivity.
  - intros p Hp.
    apply elem_of_cons in Hp as [->|Hp].
    + left. split; [vm_compute; reflexivity|left; vm_compute; reflexivity].
    + apply elem_of_cons in Hp as [->|Hp]; [|by apply elem_of_nil in Hp].
      right. split; [vm_compute; reflexivity|left; vm_compute; reflexivity].
Defined.

(** X10. When [run] returns false, the configuration store and the listing
    of installed plugins are what they were before the cycle. *)
Theorem X10_no_restart_means_no_configuration_change (catalog : Catalog) (w : World) :
  (run catalog w).1 = Ok false →
  config_store (run catalog w).2 = config_store w ∧
  cmd_list (run catalog w).2 = cmd_list w.
Proof.
  destruct (readiness_gate_frame w) as [n Hframe].
  destruct (run_cases catalog w) as [(e & wg & Hgate & ->)|(wg & ps & Hgate & _ & ->)];
    [done|].
  intros Hrun. destruct (run_loop_false catalog ps false wg Hrun) as (_ & -> & ->).
  rewrite Hgate in Hframe. simpl in Hframe. by subst wg.
Qed.

Lemma X10_witness :
  let w := Sample.node true GREEN (CmdOk "opensearch-knn") (CmdOk "")
             {[ "knn.plugin.enabled" := "true" ]} Sample.knn_on in
  config_store (run Sample.catalog w).2 = config_store w ∧
  cmd_list (run Sample.catalog w).2 = cmd_list w.
Proof.
  intros w.
  apply (X10_no_restart_means_no_configuration_change Sample.catalog w).
  vm_compute. reflexivity.
Defined.

(** X11. When [run] returns true, a mutating call was made in the cycle:
    the install command was run, or a delta was applied. *)
Theorem X11_restart_means_a_call_was_made (catalog : Catalog) (w : World) :
  (run catalog w).1 = Ok true →
  length (log w) < length (log (run catalog w).2).
Proof.
  destruct (readiness_gate_frame w) as [n Hframe].
  destruct (run_cases catalog w) as [(e & wg & Hgate & ->)|(wg & ps & Hgate & _ & ->)];
    [done|].
  intros Hrun. destruct (run_loop_true catalog ps false wg Hrun) as [|Hlt]; [done|].
  rewrite Hgate in Hframe. simpl in Hframe. by subst wg.
Qed.

Lemma X11_witness :
  let w := Sample.node true GREEN (CmdOk "") (CmdOk "") ∅ Sample.knn_on in
  length (log w) < length (log (run Sample.catalog w).2).
Proof.
  intros w.
  apply (X11_restart_means_a_call_was_made Sample.catalog w).
  vm_compute. reflexivity.
Defined.

(** X13. [run] asks the health probe at most twice, in its opening test
    only: not at all when the service is started, once when the service is
    not started and the first answer is not GREEN, twice when that first
    answer is GREEN. *)
Theorem X13_health_is_probed_in_the_test_only (catalog : Catalog) (w : World) :
  health_calls (run catalog w).2 =
    health_calls w +
    (if started w then 0
     else if bool_decide (health_seq w (health_calls w) ≠ GREEN) then 1 else 2).
Proof.
  destruct (run_cases catalog w) as [(e & wg & Hgate & ->)|(wg & ps & Hgate & _ & ->)].
  - simpl. rewrite readiness_gate_eq in Hgate.
    destruct (started w); [done|].
    repeat case_bool_decide; simplify_eq/=; lia.
  - destruct (run_loop_same_node catalog ps false wg) as (_ & _ & -> & _).
    rewrite readiness_gate_eq in Hgate.
    destruct (started w); [simplify_eq/=; lia|].
    repeat case_bool_decide; simplify_eq/=; lia.
Qed.

(** *** Descriptors and lookups by class *)

Section Descriptors.
Variable catalog : Catalog.

(** The search of [get_plugin] stops at the first instance. *)
Lemma get_plugin_loop_found cls ps w p w' :
  get_plugin_loop cls ps w = (Ok p, w') →
  w' = w ∧ isinstance cls p = true ∧
  (∃ pre post, ps = (pre ++ p :: post)%list
               ∧ Forall (λ q, isinstance cls q = false) pre) ∧
  get_plugin_status_loop cls ps w = status p w.
Proof.
  induction ps as [|q ps IH]; simpl; [done|].
  destruct (isinstance cls q) eqn:Hq.
  - intros [= -> ->]. split_and!; try done. by exists [], ps.
  - intros H. destruct (IH H) as (-> & Hp & (pre & post & -> & Hpre) & Hst).
    split_and!; try done. exists (q :: pre), post. split; [done|]. by constructor.
Qed.

Lemma get_plugin_loop_none cls ps w :
  Forall (λ q, isinstance cls q = false) ps →
  get_plugin_loop cls ps w =
    (Raise (KeyError ("Plugin manager did not find plugin: " ++ class_repr cls)), w) ∧
  get_plugin_status_loop cls ps w =
    (Raise (KeyError ("Plugin manager did not find plugin: " ++ class_repr cls)), w).
Proof.
  induction 1 as [|q ps Hq _ IH]; simpl; [done|]. by rewrite Hq.
Qed.

Lemma get_plugin_loop_raised cls ps w e w' :
  get_plugin_loop cls ps w = (Raise e, w') →
  Forall (λ q, isinstance cls q = false) ps.
Proof.
  induction ps as [|q ps IH]; simpl; [done|].
  destruct (isinstance cls q) eqn:Hq; [done|]. intros H. constructor; auto.
Qed.

End Descriptors.

(** X15. [get_plugin] returns the first descriptor of [plugins] that is an
    instance of the class, and changes nothing; [get_plugin_status] returns
    the status of that same descriptor. Both raise a plain [KeyError], with
    the same message, exactly when no descriptor is an instance. *)
Theorem X15_lookup_by_class (catalog : Catalog) (cls : PluginClass) (w : World)
    (ps : list OpenSearchPlugin) :
  (plugins catalog w).1 = Ok ps →
  (get_plugin catalog cls w).2 = w ∧
  (∀ p, (get_plugin catalog cls w).1 = Ok p →
        isinstance cls p = true ∧
        (∃ pre post, ps = (pre ++ p :: post)%list
                     ∧ Forall (λ q, isinstance cls q = false) pre) ∧
        get_plugin_status catalog cls w = status p w) ∧
  ((∃ e, (get_plugin catalog cls w).1 = Raise e)
   ↔ Forall (λ q, isinstance cls q = false) ps) ∧
  (Forall (λ q, isinstance cls q = false) ps →
   let err := KeyError ("Plugin manager did not find plugin: " ++ class_repr cls) in
   get_plugin catalog cls w = (Raise err, w) ∧
   get_plugin_status catalog cls w = (Raise err, w)).
Proof.
  intros Hps.
  assert (plugins catalog w = (Ok ps, w)) as Hrun.
  { unfold plugins in *.
    by rewrite (read_only_run _ w (plugins_of_ro catalog)), Hps. }
  assert (get_plugin catalog cls w = get_plugin_loop cls ps w) as Hg
    by (unfold get_plugin, bind; by rewrite Hrun).
  assert (get_plugin_status catalog cls w = get_plugin_status_loop cls ps w) as Hs
    by (unfold get_plugin_status, bind; by rewrite Hrun).
  rewrite Hg, Hs. split_and!.
  - destruct (get_plugin_loop cls ps w) as [[p|e] w'] eqn:Hloop.
    + by destruct (get_plugin_loop_found cls ps w p w' Hloop) as (-> & _).
    + pose proof (get_plugin_loop_raised cls ps w e w' Hloop) as Hall.
      destruct (get_plugin_loop_none cls ps w Hall) as [Hnone _].
      rewrite Hloop in Hnone. by injection Hnone as _ ->.
  - intros p Hp.
    destruct (get_plugin_loop cls ps w) as [r w'] eqn:Hloop. simpl in Hp. subst r.
    by destruct (get_plugin_loop_found cls ps w p w' Hloop) as (_ & ? & ? & ?).
  - split.
    + intros [e He].
      destruct (get_plugin_loop cls ps w) as [r w'] eqn:Hloop. simpl in He. subst r.
      by eapply get_plugin_loop_raised.
    + intros Hall. destruct (get_plugin_loop_none cls ps w Hall) as [-> _]. eauto.
  - intros Hall. apply (get_plugin_loop_none cls ps w Hall).
Qed.

Lemma X15_witness :
  let cls := {| class_repr := "OpenSearchBackupPlugin";
                isinstance := λ p, String.eqb (name p) "repository-s3" |} in
  let w := Sample.node true GREEN (CmdOk "") (CmdOk "") ∅ ∅ in
  (get_plugin Sample.catalog cls w).2 = w.
Proof.
  intros cls w.
  apply (X15_lookup_by_class Sample.catalog cls w
           [Sample.knn "2.9.0.0"; Sample.s3 "2.9.0.0"]).
  vm_compute. reflexivity.
Defined.

(** X16. [_remove_plugin] returns normally when the remove command
    succeeds, and also, with nothing changed, when it fails with a message
    that contains "not found"; any other failure is raised as the remove
    error made from the plugin's name and the message. *)
Theorem X16_remove_not_found_is_benign (cmd_remove : string → CmdOutcome)
    (plugin : string) (w : World) :
  (∀ out, cmd_remove plugin = CmdOk out →
          (_remove_plugin cmd_remove plugin w).1 = Ok tt) ∧
  (∀ msg, cmd_remove plugin = CmdFail msg →
          (∃ pre post, msg = (pre ++ "not found" ++ post)%string) →
          _remove_plugin cmd_remove plugin w = (Ok tt, w)) ∧
  (∀ msg, cmd_remove plugin = CmdFail msg →
          (¬ ∃ pre post, msg = (pre ++ "not found" ++ post)%string) →
          _remove_plugin cmd_remove plugin w =
            (Raise (OpenSearchPluginRemoveError
                      ("Failed to remove plugin " ++ plugin ++ ": " ++ msg)), w)).
Proof.
  unfold _remove_plugin, try_except, bind, run_bin_remove, on_remove_error.
  split_and!.
  - intros out ->. done.
  - intros msg -> Hin%contains_iff. by rewrite Hin.
  - intros msg -> Hout.
    destruct (Py.contains "not found" msg) eqn:Hin; [|done].
    exfalso. apply Hout. by apply contains_iff.
Qed.

Lemma X16_witness :
  let w := Sample.node true GREEN (CmdOk "") (CmdOk "") ∅ ∅ in
  _remove_plugin (λ _, CmdFail "ERROR: plugin [opensearch-knn] not found")
                 "opensearch-knn" w = (Ok tt, w).
Proof.
  intros w.
  destruct (X16_remove_not_found_is_benign
              (λ _, CmdFail "ERROR: plugin [opensearch-knn] not found")
              "opensearch-knn" w) as (_ & Hbenign & _).
  apply (Hbenign "ERROR: plugin [opensearch-knn] not found"); [reflexivity|].
  exists "ERROR: plugin [opensearch-knn] ", EmptyString. reflexivity.
Defined.

(** X17. [status] and the desired-state test only read: whether they return
    or raise, the world is as it was. And the status of a plugin depends on
    the listing, the configuration store and the service version alone: two
    worlds that agree on these give the same status, whatever their
    keystore, charm configuration, relations, health or log. *)
Theorem X17_status_reads_three_things (catalog : Catalog) (p : OpenSearchPlugin)
    (w : World) :
  (status p w).2 = w ∧
  (_user_requested_to_enable catalog p w).2 = w ∧
  (∀ w', cmd_list w' = cmd_list w →
         config_store w' = config_store w →
         opensearch_version w' = opensearch_version w →
         (status p w').1 = (status p w).1).
Proof.
  split_and!.
  - apply status_ro.
  - apply user_requested_ro.
  - intros w'. apply status_depends.
Qed.

Lemma X17_witness :
  let p := Sample.knn "2.9.0" in
  let w := Sample.node true GREEN (CmdOk "opensearch-knn") (CmdOk "") ∅ Sample.knn_on in
  let w' := Sample.node false RED (CmdOk "opensearch-knn") (CmdFail "no") ∅ ∅ in
  (status p w').1 = (status p w).1.
Proof.
  intros p w w'.
  destruct (X17_status_reads_three_things Sample.catalog p w) as (_ & _ & Hsame).
  apply Hsame; reflexivity.
Defined.
